(** * Student management dashboard: validation, CRUD handlers, fetch hook

    A shallow embedding of the logic of [App.jsx] and of the [useStudents]
    hook, followed by the properties the specification states about them.

    JavaScript strings are sequences of UTF-16 code units; a code unit is
    an [N].  React state is an explicit record threaded through a small
    monad that also carries the environment (the answers of
    [window.confirm] and of the network) and a trace of the effects the
    handlers perform. *)

From Stdlib Require Import NArith Ascii String List Decimal Lia.
From stdpp Require Import base option list countable gmap strings.

Local Open Scope N_scope.

(* ===================================================================== *)
(** ** JavaScript strings, [trim], truthiness *)
(* ===================================================================== *)

Module JS.

(** A string literal of the source, as code units (the literals of the
    source are ASCII). *)
Fixpoint js (s : string) : list N :=
  match s with
  | EmptyString => []
  | String a rest => N_of_ascii a :: js rest
  end.

(** ECMAScript WhiteSpace and LineTerminator code points: what
    [String.prototype.trim] strips and what [\s] matches. *)
Definition is_whitespace (c : N) : bool :=
  (c =? 0x09) || (c =? 0x0A) || (c =? 0x0B) || (c =? 0x0C) || (c =? 0x0D)
  || (c =? 0x20) || (c =? 0xA0) || (c =? 0x1680)
  || ((0x2000 <=? c) && (c <=? 0x200A))
  || (c =? 0x2028) || (c =? 0x2029) || (c =? 0x202F) || (c =? 0x205F)
  || (c =? 0x3000) || (c =? 0xFEFF).

Fixpoint trimStart (s : list N) : list N :=
  match s with
  | [] => []
  | c :: rest => if is_whitespace c then trimStart rest else s
  end.

Definition trimEnd (s : list N) : list N := rev (trimStart (rev s)).

Definition trim (s : list N) : list N := trimEnd (trimStart s).

(** ToBoolean on a string: only the empty string is falsy. *)
Definition truthy (s : list N) : bool :=
  match s with [] => false | _ :: _ => true end.

(** [a === b] on strings. *)
Definition strict_eq (a b : list N) : bool := bool_decide (a = b).

(** Number-to-string conversion of a non-negative integer (as in a
    template literal). *)
Fixpoint digits (u : Decimal.uint) : list N :=
  match u with
  | Decimal.Nil => []
  | Decimal.D0 r => 48 :: digits r
  | Decimal.D1 r => 49 :: digits r
  | Decimal.D2 r => 50 :: digits r
  | Decimal.D3 r => 51 :: digits r
  | Decimal.D4 r => 52 :: digits r
  | Decimal.D5 r => 53 :: digits r
  | Decimal.D6 r => 54 :: digits r
  | Decimal.D7 r => 55 :: digits r
  | Decimal.D8 r => 56 :: digits r
  | Decimal.D9 r => 57 :: digits r
  end.

Definition toString (n : N) : list N := digits (N.to_uint n).

(** An [Error] object; only its message is observed. *)
Record Error := { message : list N }.

End JS.

(* ===================================================================== *)
(** ** Regular expressions *)
(* ===================================================================== *)

Module RegExp.

(** An item of a character class. *)
Inductive class_item :=
| Space                      (* \s *)
| Unit (c : N).              (* a literal character *)

Definition item_matches (i : class_item) (c : N) : bool :=
  match i with
  | Space => JS.is_whitespace c
  | Unit d => c =? d
  end.

(** The fragment of the pattern language the source uses, closed under
    derivatives ([Void] and [Eps]). *)
Inductive regex :=
| Void
| Eps
| Chr (c : N)                          (* a literal, e.g. @ or \. *)
| NegClass (items : list class_item)   (* [^...] *)
| Cat (r1 r2 : regex)
| Star (r : regex).

(** [r+] *)
Definition Plus (r : regex) : regex := Cat r (Star r).

Fixpoint nullable (r : regex) : bool :=
  match r with
  | Void => false
  | Eps => true
  | Chr _ => false
  | NegClass _ => false
  | Cat r1 r2 => nullable r1 && nullable r2
  | Star _ => true
  end.

(** Partial derivatives: the expressions that match what may follow a
    leading [c] in a match of [r]. *)
Fixpoint deriv (c : N) (r : regex) : list regex :=
  match r with
  | Void => []
  | Eps => []
  | Chr d => if c =? d then [Eps] else []
  | NegClass items => if existsb (fun i => item_matches i c) items then [] else [Eps]
  | Cat r1 r2 =>
      map (fun d => Cat d r2) (deriv c r1)
      ++ (if nullable r1 then deriv c r2 else [])
  | Star r1 => map (fun d => Cat d (Star r1)) (deriv c r1)
  end.

(** The set of residual expressions after reading [s], as a list. *)
Fixpoint residuals (rs : list regex) (s : list N) : list regex :=
  match s with
  | [] => rs
  | c :: rest => residuals (flat_map (deriv c) rs) rest
  end.

(** [/^r$/.test(s)]: the whole string matches [r]. *)
Definition test (r : regex) (s : list N) : bool :=
  existsb nullable (residuals [r] s).

End RegExp.

(* ===================================================================== *)
(** ** Data model *)
(* ===================================================================== *)

Module Student.
Record t := { id : list N; name : list N; email : list N; course : list N }.
End Student.

Module Course.
Record t := { id : list N; code : list N; name : list N }.
End Course.

Module FormData.
Record t := { name : list N; email : list N; course : list N }.
End FormData.

(* ===================================================================== *)
(** ** The environment of a handler and its effects *)
(* ===================================================================== *)

Module Runtime.

Inductive Method := GET | POST | PUT | DELETE.

(** A call [fetch(url, init)].  The body [JSON.stringify(obj)] is kept as
    the object it serialises. *)
Record Request := {
  url : list N;
  method : Method;
  headers : list (list N * list N);
  body : option FormData.t
}.

(** What [response.json()] yields for the collections of the service. *)
Inductive Json :=
| JsonStudent (s : Student.t)
| JsonStudents (l : list Student.t)
| JsonCourses (l : list Course.t).

(** [json] is [inl e] when reading or parsing the body throws [e]. *)
Record Response := { status : N; json : JS.Error + Json }.

(** [response.ok]: the status is in the range 200-299. *)
Definition ok (r : Response) : bool :=
  (200 <=? status r) && (status r <=? 299).

(** A settled [fetch] promise: rejected (network error), or fulfilled
    with a response of any status. *)
Inductive FetchOutcome :=
| NetworkError (e : JS.Error)
| Fulfilled (r : Response).

Record Env := {
  window_confirm : list N -> bool;
  network : Request -> FetchOutcome
}.

(** The observable effects of a handler, in the order they happen. *)
Inductive Event :=
| PreventDefault
| Confirm (msg : list N) (answer : bool)
| Fetch (req : Request)
| ConsoleError (label : list N) (e : JS.Error).

Record World (S : Type) := { state : S; trace : list Event }.
Arguments state {S} _.
Arguments trace {S} _.

Inductive outcome (A : Type) :=
| Returned (a : A)
| Thrown (e : JS.Error).
Arguments Returned {A} _.
Arguments Thrown {A} _.

(** A computation over component state [S]: it reads the environment,
    updates state and trace, and returns or throws.  A handler is run to
    completion from the state it is invoked in: no other handler
    interleaves at its [await] points, so the state a functional update
    [setX(prev => ...)] receives is the state the computation has reached. *)
Definition M (S A : Type) : Type := Env -> World S -> outcome A * World S.

Definition ret {S A} (a : A) : M S A := fun _ w => (Returned a, w).

Definition bind {S A B} (m : M S A) (k : A -> M S B) : M S B :=
  fun env w =>
    match m env w with
    | (Returned a, w') => k a env w'
    | (Thrown e, w') => (Thrown e, w')
    end.

Definition throw {S A} (e : JS.Error) : M S A := fun _ w => (Thrown e, w).

Definition gets {S A} (f : S -> A) : M S A := fun _ w => (Returned (f (state w)), w).

Definition modify {S} (f : S -> S) : M S unit :=
  fun _ w => (Returned tt, {| state := f (state w); trace := trace w |}).

Definition emit {S} (ev : Event) : M S unit :=
  fun _ w => (Returned tt, {| state := state w; trace := trace w ++ [ev] |}).

(** [try { body } catch (e) { handler e }] *)
Definition try_catch {S A} (body : M S A) (handler : JS.Error -> M S A) : M S A :=
  fun env w =>
    match body env w with
    | (Returned a, w') => (Returned a, w')
    | (Thrown e, w') => handler e env w'
    end.

(** [try { body } finally { fin }] (with a [fin] that completes normally
    the outcome of [body] is kept). *)
Definition try_finally {S A} (body : M S A) (fin : M S unit) : M S A :=
  fun env w =>
    match body env w with
    | (r, w') =>
        match fin env w' with
        | (Returned _, w'') => (r, w'')
        | (Thrown e, w'') => (Thrown e, w'')
        end
    end.

(** The notations [x ← m; k] and [m;; k] are stdpp's. *)
#[global] Instance M_ret {S} : MRet (M S) := fun A => @ret S A.
#[global] Instance M_bind {S} : MBind (M S) := fun A B k m => bind m k.

(** The promise of a request settles as the network decides. *)
Definition settle {S} (req : Request) : M S Response :=
  fun env w =>
    match network env req with
    | NetworkError e => (Thrown e, w)
    | Fulfilled r => (Returned r, w)
    end.

(** [await fetch(url, init)] *)
Definition fetch {S} (req : Request) : M S Response :=
  emit (Fetch req);; settle req.

(** [if (!response.ok) throw new Error(`HTTP error! status: ${response.status}`)] *)
Definition throw_unless_ok {S} (response : Response) : M S unit :=
  if negb (ok response)
  then throw {| JS.message := JS.js "HTTP error! status: " ++ JS.toString (status response) |}
  else ret tt.

(** [await response.json()], read at the shape the caller stores it at.
    The data model is typed: a body of another shape than the one the
    endpoint serves has no representation in the component state and is
    reported as a thrown [TypeError]. *)
Definition shape_error : JS.Error := {| JS.message := JS.js "TypeError" |}.

Definition json_student {S} (response : Response) : M S Student.t :=
  match json response with
  | inl e => throw e
  | inr (JsonStudent s) => ret s
  | inr _ => throw shape_error
  end.

Definition json_students {S} (response : Response) : M S (list Student.t) :=
  match json response with
  | inl e => throw e
  | inr (JsonStudents l) => ret l
  | inr _ => throw shape_error
  end.

Definition json_courses {S} (response : Response) : M S (list Course.t) :=
  match json response with
  | inl e => throw e
  | inr (JsonCourses l) => ret l
  | inr _ => throw shape_error
  end.

(** [window.confirm(msg)] *)
Definition confirm {S} (msg : list N) : M S bool :=
  fun env w =>
    let answer := window_confirm env msg in
    (Returned answer, {| state := state w; trace := trace w ++ [Confirm msg answer] |}).

(** [console.error(label, error)] *)
Definition console_error {S} (label : list N) (e : JS.Error) : M S unit :=
  emit (ConsoleError label e).

(** Running a computation from a component state with an empty trace. *)
Definition run {S A} (m : M S A) (env : Env) (s : S) : outcome A * World S :=
  m env {| state := s; trace := [] |}.

Definition final_state {S A} (m : M S A) (env : Env) (s : S) : S :=
  state (snd (run m env s)).

Definition effects {S A} (m : M S A) (env : Env) (s : S) : list Event :=
  trace (snd (run m env s)).

Definition result {S A} (m : M S A) (env : Env) (s : S) : outcome A :=
  fst (run m env s).

End Runtime.

Import JS Runtime.

(* ===================================================================== *)
(** ** The [useStudents] hook *)
(* ===================================================================== *)

Module UseStudents.

Record State := {
  students : list Student.t;
  loading : bool;
  error : option (list N)          (* [null] is [None] *)
}.

(** The three [useState] initial values. *)
Definition initial : State :=
  {| students := []; loading := true; error := None |}.

Definition setStudents (data : list Student.t) : M State unit :=
  modify (fun st => {| students := data; loading := loading st; error := error st |}).

Definition setLoading (b : bool) : M State unit :=
  modify (fun st => {| students := students st; loading := b; error := error st |}).

Definition setError (msg : list N) : M State unit :=
  modify (fun st => {| students := students st; loading := loading st; error := Some msg |}).

Definition STUDENTS_URL : list N :=
  js "https://68710f827ca4d06b34b92fc0.mockapi.io/Students ".

Definition request : Request :=
  {| url := STUDENTS_URL; method := GET; headers := []; body := None |}.

(** The effect run once on mount. *)
Definition fetchStudents : M State unit :=
  try_finally
    (try_catch
       (response ← fetch request;
        throw_unless_ok response;;
        data ← json_students response;
        setStudents data)
       (fun err => setError (message err)))
    (setLoading false).

(** What the hook returns once the request has settled. *)
Definition useStudents (env : Env) : State :=
  final_state fetchStudents env initial.

End UseStudents.

(* ===================================================================== *)
(** ** The [App] component *)
(* ===================================================================== *)

Module App.

Definition MOCKAPI_BASE_URL : list N := js "https://68710f827ca4d06b34b92fc0.mockapi.io".
Definition COURSES_API_URL : list N := MOCKAPI_BASE_URL ++ js "/Courses".
Definition STUDENTS_API_URL : list N := MOCKAPI_BASE_URL ++ js "/Students".

Record State := {
  students : list Student.t;
  courses : list Course.t;
  isAddDialogOpen : bool;
  isEditDialogOpen : bool;
  editingStudent : option Student.t;       (* [null] is [None] *)
  formData : FormData.t;
  errors : gmap (list N) (list N)
}.

Definition emptyForm : FormData.t :=
  {| FormData.name := []; FormData.email := []; FormData.course := [] |}.

Definition initial : State :=
  {| students := []; courses := []; isAddDialogOpen := false;
     isEditDialogOpen := false; editingStudent := None;
     formData := emptyForm; errors := ∅ |}.

(** Record updates, one per state variable. *)
Definition with_students (f : list Student.t -> list Student.t) (st : State) : State :=
  {| students := f (students st); courses := courses st;
     isAddDialogOpen := isAddDialogOpen st; isEditDialogOpen := isEditDialogOpen st;
     editingStudent := editingStudent st; formData := formData st;
     errors := errors st |}.

Definition with_isAddDialogOpen (b : bool) (st : State) : State :=
  {| students := students st; courses := courses st;
     isAddDialogOpen := b; isEditDialogOpen := isEditDialogOpen st;
     editingStudent := editingStudent st; formData := formData st;
     errors := errors st |}.

Definition with_isEditDialogOpen (b : bool) (st : State) : State :=
  {| students := students st; courses := courses st;
     isAddDialogOpen := isAddDialogOpen st; isEditDialogOpen := b;
     editingStudent := editingStudent st; formData := formData st;
     errors := errors st |}.

Definition with_editingStudent (s : option Student.t) (st : State) : State :=
  {| students := students st; courses := courses st;
     isAddDialogOpen := isAddDialogOpen st; isEditDialogOpen := isEditDialogOpen st;
     editingStudent := s; formData := formData st;
     errors := errors st |}.

Definition with_formData (fd : FormData.t) (st : State) : State :=
  {| students := students st; courses := courses st;
     isAddDialogOpen := isAddDialogOpen st; isEditDialogOpen := isEditDialogOpen st;
     editingStudent := editingStudent st; formData := fd;
     errors := errors st |}.

Definition with_errors (e : gmap (list N) (list N)) (st : State) : State :=
  {| students := students st; courses := courses st;
     isAddDialogOpen := isAddDialogOpen st; isEditDialogOpen := isEditDialogOpen st;
     editingStudent := editingStudent st; formData := formData st;
     errors := e |}.

(** [setStudents(prev => f prev)] *)
Definition setStudents (f : list Student.t -> list Student.t) : M State unit :=
  modify (with_students f).

Definition setIsAddDialogOpen (b : bool) : M State unit :=
  modify (with_isAddDialogOpen b).

Definition setIsEditDialogOpen (b : bool) : M State unit :=
  modify (with_isEditDialogOpen b).

Definition setEditingStudent (s : option Student.t) : M State unit :=
  modify (with_editingStudent s).

Definition setFormData (fd : FormData.t) : M State unit :=
  modify (with_formData fd).

Definition setErrors (e : gmap (list N) (list N)) : M State unit :=
  modify (with_errors e).

(** [[^\s@]] *)
Definition not_space_at : RegExp.regex :=
  RegExp.NegClass [RegExp.Space; RegExp.Unit 64].

(** [/^[^\s@]+@[^\s@]+\.[^\s@]+$/] (64 is [@], 46 is [.]) *)
Definition email_pattern : RegExp.regex :=
  RegExp.Cat (RegExp.Plus not_space_at)
    (RegExp.Cat (RegExp.Chr 64)
       (RegExp.Cat (RegExp.Plus not_space_at)
          (RegExp.Cat (RegExp.Chr 46) (RegExp.Plus not_space_at)))).

(** The object [newErrors] that [validateForm] builds from the form. *)
Definition newErrors (formData : FormData.t) : gmap (list N) (list N) :=
  let e0 : gmap (list N) (list N) := ∅ in
  let e1 :=
    if negb (truthy (trim (FormData.name formData)))
    then <[js "name" := js "Name is required"]> e0
    else e0 in
  let e2 :=
    if negb (truthy (trim (FormData.email formData)))
    then <[js "email" := js "Email is required"]> e1
    else if negb (RegExp.test email_pattern (FormData.email formData))
    then <[js "email" := js "Please enter a valid email address"]> e1
    else e1 in
  let e3 :=
    if negb (truthy (FormData.course formData))
    then <[js "course" := js "Course selection is required"]> e2
    else e2 in
  e3.

Definition validateForm : M State bool :=
  formData ← gets formData;
  let newErrors := newErrors formData in
  setErrors newErrors;;
  mret (Nat.eqb (size newErrors) 0).

Definition resetForm : M State unit :=
  setFormData emptyForm;;
  setErrors ∅;;
  setEditingStudent None.

Definition json_headers : list (list N * list N) :=
  [(js "Content-Type", js "application/json")].

(** The submit event [e] is only used for [e.preventDefault()]. *)
Definition handleAddStudent : M State unit :=
  emit PreventDefault;;
  valid ← validateForm;
  if negb valid then mret tt else
  formData ← gets formData;
  let newStudentData := formData in
  try_catch
    (response ← fetch {| url := STUDENTS_API_URL; method := POST;
                         headers := json_headers; body := Some newStudentData |};
     throw_unless_ok response;;
     addedStudent ← json_student response;
     setStudents (fun prevStudents => prevStudents ++ [addedStudent]);;
     resetForm;;
     setIsAddDialogOpen false)
    (fun error => console_error (js "Error adding student:") error).

(** Reading [editingStudent.id]; on [null] this is a [TypeError]. *)
Definition editingStudent_id : M State (list N) :=
  editingStudent ← gets editingStudent;
  match editingStudent with
  | Some s => mret (Student.id s)
  | None => throw {| message := js "Cannot read properties of null (reading 'id')" |}
  end.

Definition handleEditStudent : M State unit :=
  emit PreventDefault;;
  valid ← validateForm;
  if negb valid then mret tt else
  formData ← gets formData;
  let updatedStudentData := formData in
  try_catch
    (id ← editingStudent_id;
     response ← fetch {| url := STUDENTS_API_URL ++ js "/" ++ id; method := PUT;
                         headers := json_headers; body := Some updatedStudentData |};
     throw_unless_ok response;;
     updatedStudent ← json_student response;
     setStudents (fun prevStudents =>
       map (fun student =>
              if strict_eq (Student.id student) (Student.id updatedStudent)
              then updatedStudent else student)
           prevStudents);;
     resetForm;;
     setIsEditDialogOpen false;;
     setEditingStudent None)
    (fun error => console_error (js "Error updating student:") error).

Definition handleDeleteStudent (id : list N) : M State unit :=
  confirmed ← confirm (js "Are you sure you want to delete this student?");
  if negb confirmed then mret tt else
  try_catch
    (response ← fetch {| url := STUDENTS_API_URL ++ js "/" ++ id; method := DELETE;
                         headers := []; body := None |};
     throw_unless_ok response;;
     setStudents (fun prevStudents =>
       List.filter (fun student => negb (strict_eq (Student.id student) id))
                   prevStudents))
    (fun error => console_error (js "Error deleting student:") error).

Definition handleEditClick (student : Student.t) : M State unit :=
  setEditingStudent (Some student);;
  setFormData {| FormData.name := Student.name student;
                 FormData.email := Student.email student;
                 FormData.course := Student.course student |};;
  setIsEditDialogOpen true.

Definition getCourseName (courses : list Course.t) (courseCode : list N) : list N :=
  let course := List.find (fun c => strict_eq (Course.code c) courseCode) courses in
  match course with
  | Some course => Course.name course
  | None => courseCode
  end.

(** *** The rest of the component: mount effects, dialog and input
    callbacks, the statistics card *)

Definition with_courses (l : list Course.t) (st : State) : State :=
  {| students := students st; courses := l;
     isAddDialogOpen := isAddDialogOpen st; isEditDialogOpen := isEditDialogOpen st;
     editingStudent := editingStudent st; formData := formData st;
     errors := errors st |}.

(** [setCourses(data)] *)
Definition setCourses (data : list Course.t) : M State unit :=
  modify (with_courses data).

(** [setStudents(data)], the form of the setter that takes a value. *)
Definition setStudentsTo (data : list Student.t) : M State unit :=
  modify (with_students (fun _ => data)).

(** The first mount effect. *)
Definition fetchCourses : M State unit :=
  try_catch
    (response ← fetch {| url := COURSES_API_URL; method := GET;
                         headers := []; body := None |};
     throw_unless_ok response;;
     data ← json_courses response;
     setCourses data)
    (fun error => console_error (js "Error fetching courses:") error).

(** The second mount effect. *)
Definition fetchStudents : M State unit :=
  try_catch
    (response ← fetch {| url := STUDENTS_API_URL; method := GET;
                         headers := []; body := None |};
     throw_unless_ok response;;
     data ← json_students response;
     setStudentsTo data)
    (fun error => console_error (js "Error fetching students:") error).

(** [onOpenChange] of the add dialog:
    [(open) => { setIsAddDialogOpen(open); if (!open) resetForm(); }] *)
Definition onAddDialogOpenChange (open : bool) : M State unit :=
  setIsAddDialogOpen open;;
  if negb open then resetForm else mret tt.

(** [onOpenChange] of the edit dialog. *)
Definition onEditDialogOpenChange (open : bool) : M State unit :=
  setIsEditDialogOpen open;;
  if negb open then resetForm else mret tt.

(** [onChange] of the name input:
    [(e) => setFormData({ ...formData, name: e.target.value })] *)
Definition onNameChange (value : list N) : M State unit :=
  formData ← gets formData;
  setFormData {| FormData.name := value;
                 FormData.email := FormData.email formData;
                 FormData.course := FormData.course formData |}.

(** [onChange] of the e-mail input. *)
Definition onEmailChange (value : list N) : M State unit :=
  formData ← gets formData;
  setFormData {| FormData.name := FormData.name formData;
                 FormData.email := value;
                 FormData.course := FormData.course formData |}.

(** [onValueChange] of the course select. *)
Definition onCourseChange (value : list N) : M State unit :=
  formData ← gets formData;
  setFormData {| FormData.name := FormData.name formData;
                 FormData.email := FormData.email formData;
                 FormData.course := value |}.

(** The "Enrolled Courses" card: [new Set(students.map(s => s.course)).size] *)
Definition enrolledCourses (students : list Student.t) : nat :=
  size (list_to_set (map Student.course students) : gset (list N)).

(** [onClick] of the Cancel button of the add dialog:
    [() => setIsAddDialogOpen(false)] *)
Definition onAddCancelClick : M State unit := setIsAddDialogOpen false.

(** [onClick] of the Cancel button of the edit dialog:
    [() => setIsEditDialogOpen(false)] *)
Definition onEditCancelClick : M State unit := setIsEditDialogOpen false.

End App.

(* ===================================================================== *)
(** ** What the patterns and the validation are compared with *)
(* ===================================================================== *)

Module RegExpSem.
Import RegExp.

(** The words a pattern denotes. *)
Inductive Lang : regex -> list N -> Prop :=
| Lang_eps : Lang Eps []
| Lang_chr c : Lang (Chr c) [c]
| Lang_neg items c :
    existsb (fun i => item_matches i c) items = false -> Lang (NegClass items) [c]
| Lang_cat r1 r2 s1 s2 :
    Lang r1 s1 -> Lang r2 s2 -> Lang (Cat r1 r2) (s1 ++ s2)
| Lang_star_nil r : Lang (Star r) []
| Lang_star_more r s1 s2 :
    Lang r s1 -> Lang (Star r) s2 -> Lang (Star r) (s1 ++ s2).

End RegExpSem.

(** The shapes of an e-mail address. *)
Module Shape.

(** A character that is neither whitespace nor [@] (64). *)
Definition plain (c : N) : Prop := is_whitespace c = false /\ c <> 64.

(** A non-empty run of such characters. *)
Definition part (s : list N) : Prop := s <> [] /\ Forall plain s.

(** [local@domain.rest]: three parts, separated by the [@] and by one of
    the dots (46) that follow it. *)
Definition email_shape (s : list N) : Prop :=
  exists l d t, s = l ++ 64 :: d ++ 46 :: t /\ part l /\ part d /\ part t.

(** The shape as the specification words it, with the separating dot
    being the last dot of the string: at least one plain character before
    the [@], at least one between the [@] and the last dot, at least one
    after the last dot (so nothing after the separating dot is a dot). *)
Definition last_dot_email_shape (s : list N) : Prop :=
  exists l d t,
    s = l ++ 64 :: d ++ 46 :: t /\ part l /\ part d /\ part t /\ ~ In 46 t.

End Shape.

Module Requests.

(** The requests a trace contains, in order. *)
Definition requests (t : list Event) : list Request :=
  flat_map (fun ev => match ev with Fetch req => [req] | _ => [] end) t.

(** The request each handler builds. *)
Definition POST_student (fd : FormData.t) : Request :=
  {| url := App.STUDENTS_API_URL; method := POST;
     headers := App.json_headers; body := Some fd |}.

Definition PUT_student (id : list N) (fd : FormData.t) : Request :=
  {| url := App.STUDENTS_API_URL ++ js "/" ++ id; method := PUT;
     headers := App.json_headers; body := Some fd |}.

Definition DELETE_student (id : list N) : Request :=
  {| url := App.STUDENTS_API_URL ++ js "/" ++ id; method := DELETE;
     headers := []; body := None |}.

(** A request fails: the promise is rejected, or the status is not 2xx. *)
Definition request_fails (o : FetchOutcome) : Prop :=
  match o with
  | NetworkError _ => True
  | Fulfilled r => ok r = false
  end.

(** The message of the error a failed request raises. *)
Definition failure_message (o : FetchOutcome) : list N :=
  match o with
  | NetworkError e => message e
  | Fulfilled r => js "HTTP error! status: " ++ toString (status r)
  end.

(** A successful response carrying a student record. *)
Definition succeeds_with (o : FetchOutcome) (s : Student.t) : Prop :=
  exists r, o = Fulfilled r /\ ok r = true /\ json r = inr (JsonStudent s).

(** The update of the list on a successful edit. *)
Definition replace_by_id (upd : Student.t) (l : list Student.t) : list Student.t :=
  map (fun student =>
         if strict_eq (Student.id student) (Student.id upd) then upd else student) l.

(** How many entries of a list carry the identifier [id]. *)
Definition count_id (id : list N) (l : list Student.t) : nat :=
  length (List.filter (fun s => strict_eq (Student.id s) id) l).

End Requests.

(** Concrete environments and states used as examples. *)
Module Scenario.

Definition student (i n e c : string) : Student.t :=
  {| Student.id := js i; Student.name := js n; Student.email := js e; Student.course := js c |}.

Definition form (n e c : string) : FormData.t :=
  {| FormData.name := js n; FormData.email := js e; FormData.course := js c |}.

Definition with_form (fd : FormData.t) (l : list Student.t) (editing : option Student.t) : App.State :=
  {| App.students := l; App.courses := []; App.isAddDialogOpen := false;
     App.isEditDialogOpen := false; App.editingStudent := editing;
     App.formData := fd; App.errors := ∅ |}.

Definition jane : FormData.t := form "Jane Doe" "jane@example.com" "CS101".

(** The user answers [answer]; every request is answered by [o]. *)
Definition env_of (answer : bool) (o : FetchOutcome) : Env :=
  {| window_confirm := fun _ => answer; network := fun _ => o |}.

Definition created (s : Student.t) : FetchOutcome :=
  Fulfilled {| status := 201; json := inr (JsonStudent s) |}.

Definition updated (s : Student.t) : FetchOutcome :=
  Fulfilled {| status := 200; json := inr (JsonStudent s) |}.

Definition server_error : FetchOutcome :=
  Fulfilled {| status := 500; json := inl {| message := js "Unexpected token" |} |}.

Definition offline : FetchOutcome :=
  NetworkError {| message := js "Failed to fetch" |}.

End Scenario.

(** Further vocabulary for the properties of the whole component. *)
Module Vocabulary.

Definition GET_courses : Request :=
  {| url := App.COURSES_API_URL; method := GET; headers := []; body := None |}.

Definition GET_students : Request :=
  {| url := App.STUDENTS_API_URL; method := GET; headers := []; body := None |}.

(** The form a student record fills in. *)
Definition form_of (s : Student.t) : FormData.t :=
  {| FormData.name := Student.name s;
     FormData.email := Student.email s;
     FormData.course := Student.course s |}.

(** The identifiers of a list of students, in order. *)
Definition ids (l : list Student.t) : list (list N) := map Student.id l.

(** The error a failed request or an unreadable body raises. *)
Definition raised (o : FetchOutcome) : option JS.Error :=
  match o with
  | NetworkError e => Some e
  | Fulfilled r =>
      if ok r
      then match json r with inl e => Some e | inr _ => None end
      else Some {| message := js "HTTP error! status: " ++ toString (status r) |}
  end.

(** The state variables other than the list of students. *)
Definition same_but_students (a b : App.State) : Prop :=
  App.courses a = App.courses b
  /\ App.isAddDialogOpen a = App.isAddDialogOpen b
  /\ App.isEditDialogOpen a = App.isEditDialogOpen b
  /\ App.editingStudent a = App.editingStudent b
  /\ App.formData a = App.formData b
  /\ App.errors a = App.errors b.

End Vocabulary.

(* ===================================================================== *)
(** ** The hook with its [await] points visible *)
(* ===================================================================== *)

(** A computation that stops at each [await]: it has finished, or it is
    suspended on a request or on the reading of a response body, in the
    state it has reached, and resumes in the state the component has
    when the promise settles. *)
Module Async.

Inductive Step (S A : Type) : Type :=
| Finished (r : outcome A) (s : S)
| AwaitFetch (s : S) (req : Request) (resume : FetchOutcome -> S -> Step S A)
| AwaitBody (s : S) (response : Response) (resume : S -> Step S A).
Arguments Finished {S A} _ _.
Arguments AwaitFetch {S A} _ _ _.
Arguments AwaitBody {S A} _ _ _.

Definition Task (S A : Type) : Type := S -> Step S A.

Definition ret {S A} (a : A) : Task S A := fun s => Finished (Returned a) s.

Definition throw {S A} (e : JS.Error) : Task S A := fun s => Finished (Thrown e) s.

Definition modify {S} (f : S -> S) : Task S unit := fun s => Finished (Returned tt) (f s).

Fixpoint bind_step {S A B} (t : Step S A) (k : A -> Task S B) : Step S B :=
  match t with
  | Finished (Returned a) s => k a s
  | Finished (Thrown e) s => Finished (Thrown e) s
  | AwaitFetch s req resume => AwaitFetch s req (fun o s' => bind_step (resume o s') k)
  | AwaitBody s r resume => AwaitBody s r (fun s' => bind_step (resume s') k)
  end.

Definition bind {S A B} (m : Task S A) (k : A -> Task S B) : Task S B :=
  fun s => bind_step (m s) k.

#[global] Instance Task_ret {S} : MRet (Task S) := fun A => @ret S A.
#[global] Instance Task_bind {S} : MBind (Task S) := fun A B k m => bind m k.

(** [try { body } catch (e) { handler e }] *)
Fixpoint catch_step {S A} (t : Step S A) (handler : JS.Error -> Task S A) : Step S A :=
  match t with
  | Finished (Returned a) s => Finished (Returned a) s
  | Finished (Thrown e) s => handler e s
  | AwaitFetch s req resume => AwaitFetch s req (fun o s' => catch_step (resume o s') handler)
  | AwaitBody s r resume => AwaitBody s r (fun s' => catch_step (resume s') handler)
  end.

Definition try_catch {S A} (body : Task S A) (handler : JS.Error -> Task S A) : Task S A :=
  fun s => catch_step (body s) handler.

(** The end of a [finally] block: the outcome [r] of the body is kept
    unless the block itself throws. *)
Fixpoint keep_outcome {S A} (r : outcome A) (t : Step S unit) : Step S A :=
  match t with
  | Finished (Returned _) s => Finished r s
  | Finished (Thrown e) s => Finished (Thrown e) s
  | AwaitFetch s req resume => AwaitFetch s req (fun o s' => keep_outcome r (resume o s'))
  | AwaitBody s resp resume => AwaitBody s resp (fun s' => keep_outcome r (resume s'))
  end.

(** [try { body } finally { fin }] *)
Fixpoint finally_step {S A} (t : Step S A) (fin : Task S unit) : Step S A :=
  match t with
  | Finished r s => keep_outcome r (fin s)
  | AwaitFetch s req resume => AwaitFetch s req (fun o s' => finally_step (resume o s') fin)
  | AwaitBody s r resume => AwaitBody s r (fun s' => finally_step (resume s') fin)
  end.

Definition try_finally {S A} (body : Task S A) (fin : Task S unit) : Task S A :=
  fun s => finally_step (body s) fin.

(** [await fetch(url, init)] *)
Definition fetch {S} (req : Request) : Task S Response :=
  fun s =>
    AwaitFetch s req (fun o s' =>
      match o with
      | NetworkError e => Finished (Thrown e) s'
      | Fulfilled r => Finished (Returned r) s'
      end).

(** [if (!response.ok) throw new Error(`HTTP error! status: ${response.status}`)] *)
Definition throw_unless_ok {S} (response : Response) : Task S unit :=
  if negb (ok response)
  then throw {| JS.message := JS.js "HTTP error! status: " ++ JS.toString (status response) |}
  else ret tt.

(** [await response.json()], read as a list of students (see
    [Runtime.json_students] for bodies of another shape). *)
Definition json_students {S} (response : Response) : Task S (list Student.t) :=
  fun s =>
    AwaitBody s response (fun s' =>
      match json response with
      | inl e => Finished (Thrown e) s'
      | inr (JsonStudents l) => Finished (Returned l) s'
      | inr _ => Finished (Thrown shape_error) s'
      end).

(** Running a task against an environment, with no other writer of the
    state: each promise settles as the environment decides and the task
    resumes in the state it was suspended in.  The result is the list of
    states the task was suspended in, in order, and how it finished. *)
Fixpoint drive {S A} (env : Env) (t : Step S A) : list S * (outcome A * S) :=
  match t with
  | Finished r s => ([], (r, s))
  | AwaitFetch s req resume =>
      let (waiting, done) := drive env (resume (network env req) s) in
      (s :: waiting, done)
  | AwaitBody s _ resume =>
      let (waiting, done) := drive env (resume s) in
      (s :: waiting, done)
  end.

(** The states in which the task waits for a promise. *)
Definition pending {S A} (env : Env) (t : Step S A) : list S := fst (drive env t).

(** The state once the task has finished. *)
Definition settled {S A} (env : Env) (t : Step S A) : S := snd (snd (drive env t)).

(** The requests the task sends, in order. *)
Fixpoint sent {S A} (env : Env) (t : Step S A) : list Request :=
  match t with
  | Finished _ _ => []
  | AwaitFetch s req resume => req :: sent env (resume (network env req) s)
  | AwaitBody s _ resume => sent env (resume s)
  end.

End Async.

(** The effect of [useStudents], suspension by suspension. *)
Module UseStudentsAsync.
Import UseStudents.

Definition setStudents (data : list Student.t) : Async.Task State unit :=
  Async.modify (fun st => {| students := data; loading := loading st; error := error st |}).

Definition setLoading (b : bool) : Async.Task State unit :=
  Async.modify (fun st => {| students := students st; loading := b; error := error st |}).

Definition setError (msg : list N) : Async.Task State unit :=
  Async.modify (fun st => {| students := students st; loading := loading st; error := Some msg |}).

Definition fetchStudents : Async.Task State unit :=
  Async.try_finally
    (Async.try_catch
       (response ← Async.fetch request;
        Async.throw_unless_ok response;;
        data ← Async.json_students response;
        setStudents data)
       (fun err => setError (message err)))
    (setLoading false).

End UseStudentsAsync.

(* ===================================================================== *)
(** * Properties *)
(* ===================================================================== *)

Module RegExpFacts.
Import RegExp RegExpSem.

Create HintDb regex.
#[local] Hint Constructors Lang : regex.

Lemma Lang_cat_inv r1 r2 s :
  Lang (Cat r1 r2) s -> exists s1 s2, s = s1 ++ s2 /\ Lang r1 s1 /\ Lang r2 s2.
Proof. intros H. inversion H; subst. eauto. Qed.

Lemma Lang_eps_inv s : Lang Eps s -> s = [].
Proof. intros H. now inversion H. Qed.

Lemma Lang_chr_inv c s : Lang (Chr c) s -> s = [c].
Proof. intros H. now inversion H. Qed.

Lemma Lang_neg_inv items s :
  Lang (NegClass items) s ->
  exists c, s = [c] /\ existsb (fun i => item_matches i c) items = false.
Proof. intros H. inversion H; subst. eauto. Qed.

Lemma nullable_Lang r : nullable r = true <-> Lang r [].
Proof.
  induction r; simpl; split; intros H; try discriminate; auto with regex.
  - inversion H.
  - inversion H.
  - inversion H.
  - apply andb_true_iff in H as [H1 H2].
    change (@nil N) with (@nil N ++ []). constructor; tauto.
  - apply Lang_cat_inv in H as (s1 & s2 & E & H1 & H2). symmetry in E.
    apply app_eq_nil in E as [-> ->]. apply andb_true_iff. tauto.
Qed.

(** A non-empty word of [r*] starts with a non-empty word of [r]. *)
Lemma Lang_star_uncons r c s :
  Lang (Star r) (c :: s) ->
  exists s1 s2, s = s1 ++ s2 /\ Lang r (c :: s1) /\ Lang (Star r) s2.
Proof.
  intros H. remember (Star r) as q eqn:Eq. remember (c :: s) as w eqn:Ew.
  revert s Ew. induction H as [| | | | |r' s1 s2 H1 _ H2 IH2]; intros s Ew; try discriminate.
  injection Eq as ->.
  destruct s1 as [|c1 s1]; simpl in Ew.
  - apply IH2; auto.
  - injection Ew as -> <-. eauto.
Qed.

Lemma deriv_Lang r : forall c s,
  Lang r (c :: s) <-> exists d, In d (deriv c r) /\ Lang d s.
Proof.
  induction r as [| |d|items|r1 IH1 r2 IH2|r IH]; intros c s; simpl.
  - split; [intros H; inversion H | intros (d & [] & _)].
  - split; [intros H; inversion H | intros (d & [] & _)].
  - split.
    + intros H. apply Lang_chr_inv in H. injection H as -> ->.
      rewrite N.eqb_refl. exists Eps. simpl; auto with regex.
    + intros (e & Hin & He). destruct (N.eqb_spec c d) as [->|]; simpl in Hin; [|tauto].
      destruct Hin as [<-|[]]. apply Lang_eps_inv in He as ->. constructor.
  - split.
    + intros H. apply Lang_neg_inv in H as (c' & E & Hc). injection E as -> ->.
      rewrite Hc. exists Eps; simpl; auto with regex.
    + intros (e & Hin & He).
      destruct (existsb _ items) eqn:Hc; simpl in Hin; [tauto|].
      destruct Hin as [<-|[]]. apply Lang_eps_inv in He as ->. now constructor.
  - split.
    + intros H. apply Lang_cat_inv in H as (s1 & s2 & E & H1 & H2). symmetry in E.
      destruct s1 as [|c1 s1]; simpl in E.
      * subst s2. apply IH2 in H2 as (d & Hd & HL). exists d. split; auto.
        apply in_or_app. right. apply nullable_Lang in H1. now rewrite H1.
      * injection E as -> <-. apply IH1 in H1 as (d & Hd & HL).
        exists (Cat d r2). split; [|now constructor].
        apply in_or_app. left. apply in_map_iff. eauto.
    + intros (e & Hin & He). apply in_app_or in Hin as [Hin|Hin].
      * apply in_map_iff in Hin as (d & <- & Hd).
        apply Lang_cat_inv in He as (s1 & s2 & -> & H1 & H2).
        change (c :: s1 ++ s2) with ((c :: s1) ++ s2). constructor; auto.
        apply IH1. eauto.
      * destruct (nullable r1) eqn:Hn; [|destruct Hin].
        change (c :: s) with ([] ++ c :: s). constructor.
        -- now apply nullable_Lang.
        -- apply IH2. eauto.
  - split.
    + intros H. apply Lang_star_uncons in H as (s1 & s2 & -> & H1 & H2).
      apply IH in H1 as (d & Hd & HL). exists (Cat d (Star r)). split; [|now constructor].
      apply in_map_iff. eauto.
    + intros (e & Hin & He). apply in_map_iff in Hin as (d & <- & Hd).
      apply Lang_cat_inv in He as (s1 & s2 & -> & H1 & H2).
      change (c :: s1 ++ s2) with ((c :: s1) ++ s2). constructor; auto.
      apply IH. eauto.
Qed.

Lemma residuals_Lang s : forall rs,
  (exists d, In d (residuals rs s) /\ Lang d []) <-> (exists r, In r rs /\ Lang r s).
Proof.
  induction s as [|c s IH]; intros rs; simpl; [tauto|].
  rewrite IH. split.
  - intros (d & Hd & HL). apply in_flat_map in Hd as (r & Hr & Hd).
    exists r. split; auto. apply deriv_Lang. eauto.
  - intros (r & Hr & HL). apply deriv_Lang in HL as (d & Hd & HL).
    exists d. split; auto. apply in_flat_map. eauto.
Qed.

(** The matcher decides membership in the language of the pattern. *)
Lemma test_Lang r s : test r s = true <-> Lang r s.
Proof.
  unfold test. rewrite existsb_exists.
  split.
  - intros (d & Hd & Hn). apply nullable_Lang in Hn.
    destruct (proj1 (residuals_Lang s [r])) as (r' & [<-|[]] & HL); eauto.
  - intros HL. destruct (proj2 (residuals_Lang s [r])) as (d & Hd & Hn).
    + exists r. simpl; auto.
    + exists d. split; auto. now apply nullable_Lang.
Qed.

End RegExpFacts.

Module EmailFacts.
Import RegExp RegExpSem RegExpFacts Shape.

Lemma not_space_at_Lang s :
  Lang App.not_space_at s <-> exists c, s = [c] /\ plain c.
Proof.
  unfold App.not_space_at, plain. split.
  - intros H. apply Lang_neg_inv in H as (c & -> & Hc). exists c. split; auto.
    simpl in Hc. rewrite orb_false_r in Hc. apply orb_false_iff in Hc as [Hw Ha].
    split; auto. now apply N.eqb_neq.
  - intros (c & -> & Hw & Ha). constructor. simpl.
    rewrite Hw. apply N.eqb_neq in Ha. now rewrite Ha.
Qed.

Lemma star_not_space_at_Lang s :
  Lang (Star App.not_space_at) s <-> Forall plain s.
Proof.
  split.
  - intros H. remember (Star App.not_space_at) as q eqn:Eq.
    induction H as [| | | | |r s1 s2 H1 _ H2 IH2]; try discriminate.
    + constructor.
    + injection Eq as ->. apply not_space_at_Lang in H1 as (c & -> & Hc).
      simpl. constructor; auto.
  - induction 1 as [|c s Hc _ IH].
    + constructor.
    + change (c :: s) with ([c] ++ s). constructor; auto.
      apply not_space_at_Lang. eauto.
Qed.

Lemma plus_not_space_at_Lang s :
  Lang (Plus App.not_space_at) s <-> part s.
Proof.
  unfold Plus, part. split.
  - intros H. apply Lang_cat_inv in H as (s1 & s2 & -> & H1 & H2).
    apply not_space_at_Lang in H1 as (c & -> & Hc).
    apply star_not_space_at_Lang in H2. split; [discriminate|].
    simpl. constructor; auto.
  - intros [Hne Hall]. destruct s as [|c s]; [congruence|].
    inversion Hall; subst.
    change (c :: s) with ([c] ++ s). constructor.
    + apply not_space_at_Lang. eauto.
    + now apply star_not_space_at_Lang.
Qed.

(** The strings the e-mail pattern accepts. *)
Lemma email_pattern_Lang s : Lang App.email_pattern s <-> email_shape s.
Proof.
  unfold App.email_pattern, email_shape. split.
  - intros H.
    apply Lang_cat_inv in H as (l & s1 & -> & Hl & H).
    apply Lang_cat_inv in H as (a & s2 & -> & Ha & H).
    apply Lang_cat_inv in H as (d & s3 & -> & Hd & H).
    apply Lang_cat_inv in H as (o & t & -> & Ho & Ht).
    apply Lang_chr_inv in Ha as ->. apply Lang_chr_inv in Ho as ->.
    exists l, d, t. rewrite !plus_not_space_at_Lang in *. auto.
  - intros (l & d & t & -> & Hl & Hd & Ht).
    rewrite <- !plus_not_space_at_Lang in *.
    constructor; auto.
    change (64 :: d ++ 46 :: t) with ([64] ++ d ++ [46] ++ t).
    repeat constructor; auto.
Qed.

Lemma email_test_shape s : test App.email_pattern s = true <-> email_shape s.
Proof. rewrite test_Lang. apply email_pattern_Lang. Qed.

Lemma last_dot_shape_accepted s : last_dot_email_shape s -> email_shape s.
Proof. intros (l & d & t & H). exists l, d, t. tauto. Qed.

(** In the last-dot shape the string does not end with a dot. *)
Lemma last_dot_shape_end u : last_dot_email_shape (u ++ [46]) -> False.
Proof.
  intros (l & d & t & E & _ & _ & [Hne _] & Hdot).
  destruct (exists_last Hne) as (t' & x & ->).
  replace (l ++ 64 :: d ++ 46 :: t' ++ [x]) with ((l ++ 64 :: d ++ 46 :: t') ++ [x]) in E
    by (rewrite <- !app_assoc; simpl; rewrite <- !app_assoc; reflexivity).
  apply app_inj_tail in E as [_ <-].
  apply Hdot. apply in_or_app. right. simpl. auto.
Qed.

Lemma truthy_false s : truthy s = false <-> s = [].
Proof. destruct s; simpl; split; congruence. Qed.

End EmailFacts.

Module ValidationFacts.
Import RegExp Shape EmailFacts App.

Lemma trimStart_nil s : trimStart s = [] <-> Forall (fun c => is_whitespace c = true) s.
Proof.
  induction s as [|c s IH]; simpl.
  - split; auto.
  - destruct (is_whitespace c) eqn:Hc.
    + rewrite IH. split; [intros H; constructor; auto | intros H; now inversion H].
    + split; [discriminate | intros H; inversion H; congruence].
Qed.

Lemma trimStart_head s c r : trimStart s = c :: r -> is_whitespace c = false.
Proof.
  induction s as [|a s IH]; simpl; [discriminate|].
  destruct (is_whitespace a) eqn:Ha; auto.
  intros E; injection E as <- _. exact Ha.
Qed.

(** [trim] leaves nothing exactly when every character is whitespace. *)
Lemma trim_nil s : trim s = [] <-> Forall (fun c => is_whitespace c = true) s.
Proof.
  rewrite <- trimStart_nil. unfold trim, trimEnd. split.
  - intros H. apply (f_equal (@rev N)) in H. rewrite rev_involutive in H. simpl in H.
    apply trimStart_nil in H. apply Forall_rev in H. rewrite rev_involutive in H.
    destruct (trimStart s) as [|c r] eqn:E; [reflexivity|].
    apply trimStart_head in E. inversion H; congruence.
  - intros ->. reflexivity.
Qed.

Lemma key_name_email : js "name" <> js "email". Proof. discriminate. Qed.
Lemma key_name_course : js "name" <> js "course". Proof. discriminate. Qed.
Lemma key_email_course : js "email" <> js "course". Proof. discriminate. Qed.

Ltac lookup_keys :=
  repeat first
    [ rewrite lookup_insert_eq
    | rewrite lookup_insert_ne by (discriminate)
    | rewrite lookup_empty ].

Lemma newErrors_name fd :
  newErrors fd !! js "name" =
  if truthy (trim (FormData.name fd)) then None else Some (js "Name is required").
Proof.
  unfold newErrors.
  destruct (truthy (trim (FormData.name fd))),
           (truthy (trim (FormData.email fd))),
           (test email_pattern (FormData.email fd)),
           (truthy (FormData.course fd)); cbn [negb]; lookup_keys; reflexivity.
Qed.

Lemma newErrors_email fd :
  newErrors fd !! js "email" =
  if truthy (trim (FormData.email fd))
  then if test email_pattern (FormData.email fd)
       then None
       else Some (js "Please enter a valid email address")
  else Some (js "Email is required").
Proof.
  unfold newErrors.
  destruct (truthy (trim (FormData.name fd))),
           (truthy (trim (FormData.email fd))),
           (test email_pattern (FormData.email fd)),
           (truthy (FormData.course fd)); cbn [negb]; lookup_keys; reflexivity.
Qed.

Lemma newErrors_course fd :
  newErrors fd !! js "course" =
  if truthy (FormData.course fd) then None else Some (js "Course selection is required").
Proof.
  unfold newErrors.
  destruct (truthy (trim (FormData.name fd))),
           (truthy (trim (FormData.email fd))),
           (test email_pattern (FormData.email fd)),
           (truthy (FormData.course fd)); cbn [negb]; lookup_keys; reflexivity.
Qed.

(** The form is valid exactly when none of the three rules fires. *)
Lemma newErrors_size fd :
  Nat.eqb (size (newErrors fd)) 0 =
  truthy (trim (FormData.name fd))
  && (truthy (trim (FormData.email fd)) && test email_pattern (FormData.email fd))
  && truthy (FormData.course fd).
Proof.
  unfold newErrors.
  destruct (truthy (trim (FormData.name fd))),
           (truthy (trim (FormData.email fd))),
           (test email_pattern (FormData.email fd)),
           (truthy (FormData.course fd)); cbn [negb andb];
  repeat (rewrite map_size_insert_None by (lookup_keys; reflexivity));
  rewrite ?map_size_empty; reflexivity.
Qed.

(** [validateForm] stores [newErrors] and touches nothing else. *)
Lemma validateForm_run env w :
  validateForm env w =
  (Returned (Nat.eqb (size (newErrors (formData (state w)))) 0),
   {| state := with_errors (newErrors (formData (state w))) (state w);
      trace := trace w |}).
Proof. reflexivity. Qed.

End ValidationFacts.

Module ListFacts.
Import Requests.

Lemma strict_eq_true a b : strict_eq a b = true <-> a = b.
Proof. unfold strict_eq. apply bool_decide_eq_true. Qed.

Lemma strict_eq_false a b : strict_eq a b = false <-> a <> b.
Proof. unfold strict_eq. apply bool_decide_eq_false. Qed.

Lemma replace_by_id_length upd l : length (replace_by_id upd l) = length l.
Proof. unfold replace_by_id. induction l; simpl; congruence. Qed.

Lemma replace_by_id_lookup upd (l : list Student.t) : forall (i : nat) s,
  l !! i = Some s ->
  replace_by_id upd l !! i =
  Some (if decide (Student.id s = Student.id upd) then upd else s).
Proof.
  induction l as [|a l IH]; intros [|i] s H; simpl in *; try discriminate.
  - injection H as ->. unfold strict_eq.
    destruct (decide (Student.id s = Student.id upd)) as [E|E].
    + now rewrite bool_decide_eq_true_2.
    + now rewrite bool_decide_eq_false_2.
  - now apply IH.
Qed.

Lemma replace_by_id_absent upd l :
  Forall (fun s => Student.id s <> Student.id upd) l -> replace_by_id upd l = l.
Proof.
  induction 1 as [|a l Ha _ IH]; [reflexivity|].
  change (replace_by_id upd (a :: l))
    with ((if strict_eq (Student.id a) (Student.id upd) then upd else a)
          :: replace_by_id upd l).
  apply strict_eq_false in Ha. now rewrite Ha, IH.
Qed.

Lemma replace_by_id_app upd l1 l2 :
  replace_by_id upd (l1 ++ l2) = replace_by_id upd l1 ++ replace_by_id upd l2.
Proof. unfold replace_by_id. apply map_app. Qed.

Lemma replace_by_id_unique upd l1 s l2 :
  Student.id s = Student.id upd ->
  Forall (fun x => Student.id x <> Student.id upd) (l1 ++ l2) ->
  replace_by_id upd (l1 ++ s :: l2) = l1 ++ upd :: l2.
Proof.
  intros Hs Hall. apply Forall_app in Hall as [H1 H2].
  rewrite replace_by_id_app. rewrite (replace_by_id_absent upd l1 H1).
  change (replace_by_id upd (s :: l2))
    with ((if strict_eq (Student.id s) (Student.id upd) then upd else s)
          :: replace_by_id upd l2).
  apply strict_eq_true in Hs. now rewrite Hs, (replace_by_id_absent upd l2 H2).
Qed.

Lemma replace_by_id_In upd l :
  (exists s, In s l /\ Student.id s = Student.id upd) -> In upd (replace_by_id upd l).
Proof.
  intros (s & Hin & Hs). unfold replace_by_id. apply in_map_iff.
  exists s. split; auto. apply strict_eq_true in Hs. now rewrite Hs.
Qed.

Lemma filter_split_length {A} (p : A -> bool) (l : list A) :
  (length (List.filter p l) + length (List.filter (fun x => negb (p x)) l))%nat = length l.
Proof.
  induction l as [|a l IH]; simpl; [reflexivity|].
  destruct (p a); simpl; lia.
Qed.

Lemma filter_out_id id l :
  Forall (fun s => Student.id s <> id)
         (List.filter (fun s => negb (strict_eq (Student.id s) id)) l).
Proof.
  apply List.Forall_forall. intros s Hs. apply filter_In in Hs as [_ Hs].
  apply negb_true_iff in Hs. now apply strict_eq_false.
Qed.

End ListFacts.

Module HandlerFacts.
Import App ValidationFacts Requests.

Ltac exec :=
  cbv [final_state effects result run
       handleAddStudent handleEditStudent handleDeleteStudent validateForm resetForm
       editingStudent_id
       setStudents setIsAddDialogOpen setIsEditDialogOpen setEditingStudent
       setFormData setErrors
       fetch settle throw_unless_ok json_student json_students json_courses
       confirm console_error emit modify gets throw try_catch try_finally
       mbind M_bind bind mret M_ret ret
       POST_student PUT_student DELETE_student state trace fst snd] in *;
  cbn [with_students with_isAddDialogOpen with_isEditDialogOpen with_editingStudent
       with_formData with_errors
       students courses isAddDialogOpen isEditDialogOpen editingStudent formData
       errors negb] in *.

(** The requests of the create handler. *)
Lemma add_requests env st :
  requests (effects handleAddStudent env st) =
  if Nat.eqb (size (newErrors (formData st))) 0
  then [POST_student (formData st)] else [].
Proof.
  exec.
  destruct (Nat.eqb (size (newErrors (formData st))) 0); cbn [negb]; [|reflexivity].
  destruct (network env _) as [e|r]; [reflexivity|].
  destruct (ok r); cbn [negb]; [|reflexivity].
  destruct (json r) as [e|[s|l|l]]; reflexivity.
Qed.

(** An invalid form: only the errors change. *)
Lemma add_invalid env st :
  Nat.eqb (size (newErrors (formData st))) 0 = false ->
  run handleAddStudent env st =
  (Returned tt, {| state := with_errors (newErrors (formData st)) st;
                   trace := [PreventDefault] |}).
Proof. intros H. exec. rewrite H. reflexivity. Qed.

Lemma add_students_success env st s :
  Nat.eqb (size (newErrors (formData st))) 0 = true ->
  succeeds_with (network env (POST_student (formData st))) s ->
  students (final_state handleAddStudent env st) = students st ++ [s].
Proof.
  intros Hv (r & Hn & Hok & Hj).
  exec. rewrite Hv. exec. rewrite Hn. exec. rewrite Hok. exec. rewrite Hj.
  reflexivity.
Qed.

Lemma add_students_failure env st :
  request_fails (network env (POST_student (formData st))) ->
  students (final_state handleAddStudent env st) = students st.
Proof.
  intros Hf. exec.
  destruct (Nat.eqb (size (newErrors (formData st))) 0); exec; [|reflexivity].
  destruct (network env _) as [e|r]; [reflexivity|].
  simpl in Hf. rewrite Hf. reflexivity.
Qed.

Lemma edit_students_success env st e upd :
  Nat.eqb (size (newErrors (formData st))) 0 = true ->
  editingStudent st = Some e ->
  succeeds_with (network env (PUT_student (Student.id e) (formData st))) upd ->
  students (final_state handleEditStudent env st) = replace_by_id upd (students st).
Proof.
  intros Hv He (r & Hn & Hok & Hj).
  exec. rewrite Hv. exec. rewrite He. exec. rewrite Hn. exec. rewrite Hok. exec.
  rewrite Hj. reflexivity.
Qed.

Lemma edit_students_failure env st :
  (forall e, editingStudent st = Some e ->
             request_fails (network env (PUT_student (Student.id e) (formData st)))) ->
  students (final_state handleEditStudent env st) = students st.
Proof.
  intros Hf. exec.
  destruct (Nat.eqb (size (newErrors (formData st))) 0); exec; [|reflexivity].
  destruct (editingStudent st) as [e|] eqn:He; [|reflexivity].
  specialize (Hf e eq_refl). exec.
  destruct (network env _) as [err|r]; [reflexivity|].
  simpl in Hf. rewrite Hf. reflexivity.
Qed.

Lemma delete_declined env st id :
  window_confirm env (js "Are you sure you want to delete this student?") = false ->
  run (handleDeleteStudent id) env st =
  (Returned tt,
   {| state := st;
      trace := [Confirm (js "Are you sure you want to delete this student?") false] |}).
Proof. intros H. exec. rewrite H. reflexivity. Qed.

Lemma delete_students_success env st id r :
  window_confirm env (js "Are you sure you want to delete this student?") = true ->
  network env (DELETE_student id) = Fulfilled r ->
  ok r = true ->
  students (final_state (handleDeleteStudent id) env st) =
  List.filter (fun student => negb (strict_eq (Student.id student) id)) (students st).
Proof.
  intros Hc Hn Hok. exec. rewrite Hc. exec. rewrite Hn. exec. rewrite Hok.
  reflexivity.
Qed.

Lemma delete_students_failure env st id :
  request_fails (network env (DELETE_student id)) ->
  students (final_state (handleDeleteStudent id) env st) = students st.
Proof.
  intros Hf. exec.
  destruct (window_confirm env _); exec; [|reflexivity].
  destruct (network env _) as [e|r]; [reflexivity|].
  simpl in Hf. rewrite Hf. reflexivity.
Qed.

End HandlerFacts.

Module Validation.
Import RegExp Shape EmailFacts ValidationFacts Requests Scenario App.

(** C2 (as amended).  After [validateForm], the [email] entry of the
    errors is "Email is required" exactly when the e-mail is empty after
    trimming; it is "Please enter a valid email address" exactly when the
    e-mail is not empty after trimming and is not of the shape
    [local@domain.rest], three non-empty runs of characters that are
    neither whitespace nor [@], separated by the [@] and by some dot after
    it (not necessarily the last one). *)
Theorem email_rule (env : Env) (st : State) :
  let result := errors (final_state validateForm env st) in
  let e := FormData.email (formData st) in
  (result !! js "email" = Some (js "Email is required") <-> trim e = [])
  /\ (result !! js "email" = Some (js "Please enter a valid email address")
      <-> trim e <> [] /\ ~ email_shape e).
Proof.
  cbv zeta. unfold final_state, run. rewrite validateForm_run. cbn [snd state with_errors errors].
  rewrite newErrors_email, <- email_test_shape.
  destruct (truthy (trim (FormData.email (formData st)))) eqn:Ht.
  - assert (Hne : trim (FormData.email (formData st)) <> []).
    { intros E. apply truthy_false in E. congruence. }
    destruct (test email_pattern (FormData.email (formData st))) eqn:Hm.
    + intuition congruence.
    + assert (js "Please enter a valid email address" <> js "Email is required")
        by discriminate.
      intuition congruence.
  - apply truthy_false in Ht.
    assert (js "Email is required" <> js "Please enter a valid email address")
      by discriminate.
    intuition congruence.
Qed.

(** C2, as stated, fails: the e-mail [x@a.b.] is not empty after trimming
    and has no character after its last dot, still [validateForm] records
    no [email] error for it. *)
Lemma email_rule_last_dot_fails :
  let st := with_form (form "Jane Doe" "x@a.b." "CS101") [] None in
  let e := FormData.email (formData st) in
  trim e <> []
  /\ ~ last_dot_email_shape e
  /\ errors (final_state validateForm (env_of true offline) st) !! js "email" = None.
Proof.
  cbv zeta. split; [|split].
  - vm_compute. discriminate.
  - change (FormData.email (formData (with_form (form "Jane Doe" "x@a.b." "CS101") [] None)))
      with (js "x@a.b" ++ [46]).
    exact (last_dot_shape_end (js "x@a.b")).
  - vm_compute. reflexivity.
Qed.

(** C7.  After [validateForm]: a name that is empty after trimming gives
    the [name] error "Name is required"; an empty course gives the
    [course] error "Course selection is required"; and for the form
    [{name: "Jane Doe", email: "jane@example.com", course: "CS101"}] the
    errors are the empty mapping and the form is reported valid. *)
Theorem required_fields (env : Env) (st : State) :
  let result := errors (final_state validateForm env st) in
  (trim (FormData.name (formData st)) = [] ->
     result !! js "name" = Some (js "Name is required"))
  /\ (FormData.course (formData st) = [] ->
        result !! js "course" = Some (js "Course selection is required"))
  /\ (formData st = jane ->
        result = ∅ /\ Runtime.result validateForm env st = Returned true).
Proof.
  cbv zeta. unfold final_state, Runtime.result, run. rewrite validateForm_run.
  cbn [fst snd state with_errors errors]. split; [|split].
  - intros H. rewrite newErrors_name, H. reflexivity.
  - intros H. rewrite newErrors_course, H. reflexivity.
  - intros ->. split; vm_compute; reflexivity.
Qed.

Lemma required_fields_witness :
  let blank := with_form (form "   " "jane@example.com" "") [] None in
  let good := with_form jane [] None in
  let env := env_of true offline in
  (trim (FormData.name (formData blank)) = []
   /\ errors (final_state validateForm env blank) !! js "name"
      = Some (js "Name is required"))
  /\ (FormData.course (formData blank) = []
      /\ errors (final_state validateForm env blank) !! js "course"
         = Some (js "Course selection is required"))
  /\ (formData good = jane
      /\ errors (final_state validateForm env good) = ∅
      /\ Runtime.result validateForm env good = Returned true).
Proof.
  cbv zeta.
  pose proof (required_fields (env_of true offline)
                (with_form (form "   " "jane@example.com" "") [] None)) as (Hn & Hc & _).
  pose proof (required_fields (env_of true offline) (with_form jane [] None)) as (_ & _ & Hj).
  split; [|split].
  - split; [vm_compute; reflexivity | apply Hn; vm_compute; reflexivity].
  - split; [reflexivity | apply Hc; reflexivity].
  - split; [reflexivity | apply Hj; reflexivity].
Defined.

End Validation.

Module Crud.
Import ValidationFacts ListFacts HandlerFacts Requests Scenario App.

Lemma valid_iff fd : Nat.eqb (size (newErrors fd)) 0 = true <-> newErrors fd = ∅.
Proof. rewrite Nat.eqb_eq. apply map_size_empty_iff. Qed.

Lemma invalid_iff fd : Nat.eqb (size (newErrors fd)) 0 = false <-> newErrors fd <> ∅.
Proof. rewrite <- valid_iff. destruct (Nat.eqb _ _); split; congruence. Qed.

(** C1 (as amended).  The create handler validates the form first.  When
    the validation result is empty it sends exactly one request, the POST
    to the Students collection with the form as body; when it is not
    empty it sends no request, and the only change to the state is that
    the validation errors are stored. *)
Theorem create_validates_before_posting (env : Env) (st : State) :
  (newErrors (formData st) = ∅ ->
     requests (effects handleAddStudent env st) = [POST_student (formData st)])
  /\ (newErrors (formData st) <> ∅ ->
        requests (effects handleAddStudent env st) = []
        /\ final_state handleAddStudent env st
           = with_errors (newErrors (formData st)) st).
Proof.
  split; intros H.
  - rewrite add_requests. apply valid_iff in H. now rewrite H.
  - apply invalid_iff in H. rewrite add_requests, H. split; [reflexivity|].
    unfold final_state. now rewrite (add_invalid env st H).
Qed.

Lemma create_validates_before_posting_witness :
  let env := env_of true (created (student "42" "A" "a@b.com" "CS101")) in
  let good := with_form jane [] None in
  let bad := with_form (form "" "nobody" "") [] None in
  (newErrors (formData good) = ∅
   /\ requests (effects handleAddStudent env good) = [POST_student jane])
  /\ (newErrors (formData bad) <> ∅
      /\ requests (effects handleAddStudent env bad) = []).
Proof.
  cbv zeta.
  pose proof (create_validates_before_posting
                (env_of true (created (student "42" "A" "a@b.com" "CS101")))
                (with_form jane [] None)) as [Hgood _].
  pose proof (create_validates_before_posting
                (env_of true (created (student "42" "A" "a@b.com" "CS101")))
                (with_form (form "" "nobody" "") [] None)) as [_ Hbad].
  assert (Hne : newErrors (formData (with_form (form "" "nobody" "") [] None)) <> ∅).
  { apply invalid_iff. vm_compute. reflexivity. }
  split; split.
  - vm_compute. reflexivity.
  - apply Hgood. vm_compute. reflexivity.
  - exact Hne.
  - apply (Hbad Hne).
Defined.

(** C1, as stated, fails: with a form that breaks the validation rules
    (empty name, malformed e-mail, no course) the create handler rejects
    the form locally; the POST of that form is not among its effects. *)
Lemma create_rejects_invalid_form :
  let env := env_of true (created (student "42" "A" "a@b.com" "CS101")) in
  let bad := with_form (form "" "nobody" "") [] None in
  newErrors (formData bad) <> ∅
  /\ ~ In (Fetch (POST_student (formData bad))) (effects handleAddStudent env bad).
Proof.
  cbv zeta. split.
  - apply invalid_iff. vm_compute. reflexivity.
  - vm_compute. intros [H|[]]. discriminate H.
Qed.

(** C3.  After a successful POST (a valid form, a 2xx response carrying
    the created record) the list of students is the previous list with
    the returned record appended: one longer, the record last, the
    previous list as prefix. *)
Theorem create_appends (env : Env) (st : State) (s : Student.t) :
  newErrors (formData st) = ∅ ->
  succeeds_with (network env (POST_student (formData st))) s ->
  let before := students st in
  let after := students (final_state handleAddStudent env st) in
  after = before ++ [s]
  /\ length after = S (length before)
  /\ last after = Some s
  /\ take (length before) after = before.
Proof.
  intros Hv Hs. cbv zeta. apply valid_iff in Hv.
  rewrite (add_students_success env st s Hv Hs).
  repeat split.
  - rewrite length_app. simpl. lia.
  - apply last_snoc.
  - now rewrite take_app_length.
Qed.

Lemma create_appends_witness :
  let s := student "42" "A" "a@b.com" "CS101" in
  let env := env_of true (created s) in
  let st := with_form jane [student "7" "B" "b@c.org" "MA201"] None in
  students (final_state handleAddStudent env st) = [student "7" "B" "b@c.org" "MA201"; s]
  /\ length (students (final_state handleAddStudent env st)) = 2%nat
  /\ last (students (final_state handleAddStudent env st)) = Some s.
Proof.
  cbv zeta.
  destruct (create_appends
              (env_of true (created (student "42" "A" "a@b.com" "CS101")))
              (with_form jane [student "7" "B" "b@c.org" "MA201"] None)
              (student "42" "A" "a@b.com" "CS101")) as (H1 & H2 & H3 & _).
  - vm_compute. reflexivity.
  - eexists. split; [reflexivity|]. split; reflexivity.
  - split; [exact H1|]. split; [exact H2 | exact H3].
Defined.

(** C4.  After a successful PUT (a valid form, a student being edited, a
    2xx response carrying the updated record) on a list that contains an
    entry with the id of the returned record: the list keeps its length;
    position by position, an entry with that id is now the returned
    record and any other entry is unchanged; the returned record is in
    the list; and when exactly one entry has that id, the list is the
    previous one with that entry replaced in place. *)
Theorem update_replaces_matching (env : Env) (st : State) (e upd : Student.t) :
  newErrors (formData st) = ∅ ->
  editingStudent st = Some e ->
  succeeds_with (network env (PUT_student (Student.id e) (formData st))) upd ->
  (exists s, In s (students st) /\ Student.id s = Student.id upd) ->
  let before := students st in
  let after := students (final_state handleEditStudent env st) in
  length after = length before
  /\ (forall (i : nat) s, before !! i = Some s ->
        after !! i = Some (if decide (Student.id s = Student.id upd) then upd else s))
  /\ In upd after
  /\ (forall l1 s l2,
        before = l1 ++ s :: l2 ->
        Student.id s = Student.id upd ->
        Forall (fun x => Student.id x <> Student.id upd) (l1 ++ l2) ->
        after = l1 ++ upd :: l2).
Proof.
  intros Hv He Hs Hex. cbv zeta. apply valid_iff in Hv.
  rewrite (edit_students_success env st e upd Hv He Hs).
  split; [apply replace_by_id_length|].
  split; [apply replace_by_id_lookup|].
  split; [now apply replace_by_id_In|].
  intros l1 s l2 -> Hid Hall. now apply replace_by_id_unique.
Qed.

Lemma update_replaces_matching_witness :
  let old := student "7" "Old" "old@b.com" "CS101" in
  let other := student "8" "Other" "o@b.com" "MA201" in
  let upd := student "7" "New" "new@b.com" "CS101" in
  let env := env_of true (updated upd) in
  let st := with_form (form "New" "new@b.com" "CS101") [other; old; other] (Some old) in
  students (final_state handleEditStudent env st) = [other; upd; other].
Proof.
  cbv zeta.
  destruct (update_replaces_matching
              (env_of true (updated (student "7" "New" "new@b.com" "CS101")))
              (with_form (form "New" "new@b.com" "CS101")
                 [student "8" "Other" "o@b.com" "MA201";
                  student "7" "Old" "old@b.com" "CS101";
                  student "8" "Other" "o@b.com" "MA201"]
                 (Some (student "7" "Old" "old@b.com" "CS101")))
              (student "7" "Old" "old@b.com" "CS101")
              (student "7" "New" "new@b.com" "CS101")) as (_ & _ & _ & H).
  - vm_compute. reflexivity.
  - reflexivity.
  - eexists. split; [reflexivity|]. split; reflexivity.
  - exists (student "7" "Old" "old@b.com" "CS101"). split; [simpl; auto | reflexivity].
  - apply (H [student "8" "Other" "o@b.com" "MA201"]
             (student "7" "Old" "old@b.com" "CS101")
             [student "8" "Other" "o@b.com" "MA201"]).
    + reflexivity.
    + reflexivity.
    + repeat constructor; discriminate.
Defined.

(** C10.  After a successful PUT whose returned record has an id that no
    entry of the list has, the list of students is unchanged. *)
Theorem update_absent_id_noop (env : Env) (st : State) (e upd : Student.t) :
  newErrors (formData st) = ∅ ->
  editingStudent st = Some e ->
  succeeds_with (network env (PUT_student (Student.id e) (formData st))) upd ->
  Forall (fun s => Student.id s <> Student.id upd) (students st) ->
  students (final_state handleEditStudent env st) = students st.
Proof.
  intros Hv He Hs Hall. apply valid_iff in Hv.
  rewrite (edit_students_success env st e upd Hv He Hs).
  now apply replace_by_id_absent.
Qed.

Lemma update_absent_id_noop_witness :
  let old := student "7" "Old" "old@b.com" "CS101" in
  let other := student "8" "Other" "o@b.com" "MA201" in
  let upd := student "99" "New" "new@b.com" "CS101" in
  let env := env_of true (updated upd) in
  let st := with_form (form "New" "new@b.com" "CS101") [other; old] (Some old) in
  students (final_state handleEditStudent env st) = [other; old].
Proof.
  cbv zeta.
  apply (update_absent_id_noop
           (env_of true (updated (student "99" "New" "new@b.com" "CS101")))
           (with_form (form "New" "new@b.com" "CS101")
              [student "8" "Other" "o@b.com" "MA201";
               student "7" "Old" "old@b.com" "CS101"]
              (Some (student "7" "Old" "old@b.com" "CS101")))
           (student "7" "Old" "old@b.com" "CS101")
           (student "99" "New" "new@b.com" "CS101")).
  - vm_compute. reflexivity.
  - reflexivity.
  - eexists. split; [reflexivity|]. split; reflexivity.
  - repeat constructor; discriminate.
Defined.

(** C5.  If the confirmation is declined, the delete handler sends no
    request and leaves the whole state, so the list of students,
    unchanged.  If it is confirmed and the DELETE succeeds on a list with
    exactly one entry of the given id, the resulting list is the previous
    one filtered by identifier: no entry has the id, and it is one
    shorter. *)
Theorem delete_gate_and_removal (env : Env) (st : State) (id : list N) :
  let question := js "Are you sure you want to delete this student?" in
  (window_confirm env question = false ->
     requests (effects (handleDeleteStudent id) env st) = []
     /\ final_state (handleDeleteStudent id) env st = st)
  /\ (window_confirm env question = true ->
      (exists r, network env (DELETE_student id) = Fulfilled r /\ ok r = true) ->
      count_id id (students st) = 1%nat ->
      let after := students (final_state (handleDeleteStudent id) env st) in
      after = List.filter (fun s => negb (strict_eq (Student.id s) id)) (students st)
      /\ Forall (fun s => Student.id s <> id) after
      /\ S (length after) = length (students st)).
Proof.
  cbv zeta. split.
  - intros Hc. unfold effects, final_state.
    rewrite (delete_declined env st id Hc). split; reflexivity.
  - intros Hc (r & Hn & Hok) Hone.
    rewrite (delete_students_success env st id r Hc Hn Hok).
    split; [reflexivity|]. split; [apply filter_out_id|].
    pose proof (filter_split_length (fun s => strict_eq (Student.id s) id) (students st)) as L.
    unfold count_id in Hone. lia.
Qed.

Lemma delete_gate_and_removal_witness :
  let nine := student "9" "Nine" "n@b.com" "CS101" in
  let other := student "8" "Other" "o@b.com" "MA201" in
  let st := with_form emptyForm [other; nine; other] None in
  let gone := Fulfilled {| status := 204; json := inl {| message := [] |} |} in
  (final_state (handleDeleteStudent (js "9")) (env_of false gone) st = st
   /\ requests (effects (handleDeleteStudent (js "9")) (env_of false gone) st) = [])
  /\ students (final_state (handleDeleteStudent (js "9")) (env_of true gone) st)
     = [other; other].
Proof.
  cbv zeta.
  pose proof (delete_gate_and_removal
    (env_of false (Fulfilled {| status := 204; json := inl {| message := [] |} |}))
    (with_form emptyForm
       [student "8" "Other" "o@b.com" "MA201"; student "9" "Nine" "n@b.com" "CS101";
        student "8" "Other" "o@b.com" "MA201"] None)
    (js "9")) as [Hno _].
  pose proof (delete_gate_and_removal
    (env_of true (Fulfilled {| status := 204; json := inl {| message := [] |} |}))
    (with_form emptyForm
       [student "8" "Other" "o@b.com" "MA201"; student "9" "Nine" "n@b.com" "CS101";
        student "8" "Other" "o@b.com" "MA201"] None)
    (js "9")) as [_ Hyes].
  split.
  - destruct (Hno eq_refl) as [H1 H2]. split; [exact H2 | exact H1].
  - destruct Hyes as (H & _ & _).
    + reflexivity.
    + eexists. split; reflexivity.
    + vm_compute. reflexivity.
    + rewrite H. vm_compute. reflexivity.
Defined.

(** C6.  A create, update or delete whose request fails (the promise is
    rejected, or the status is not 2xx) leaves the list of students
    equal to what it was before the call. *)
Theorem failure_leaves_students (env : Env) (st : State) (id : list N) :
  (request_fails (network env (POST_student (formData st))) ->
     students (final_state handleAddStudent env st) = students st)
  /\ ((forall e, editingStudent st = Some e ->
         request_fails (network env (PUT_student (Student.id e) (formData st)))) ->
      students (final_state handleEditStudent env st) = students st)
  /\ (request_fails (network env (DELETE_student id)) ->
      students (final_state (handleDeleteStudent id) env st) = students st).
Proof.
  split; [|split].
  - apply add_students_failure.
  - apply edit_students_failure.
  - apply delete_students_failure.
Qed.

Lemma failure_leaves_students_witness :
  let old := student "7" "Old" "old@b.com" "CS101" in
  let st := with_form jane [old] (Some old) in
  (requests (effects handleAddStudent (env_of true server_error) st) = [POST_student jane]
   /\ students (final_state handleAddStudent (env_of true server_error) st) = [old])
  /\ (requests (effects handleEditStudent (env_of true offline) st)
        = [PUT_student (js "7") jane]
      /\ students (final_state handleEditStudent (env_of true offline) st) = [old])
  /\ (requests (effects (handleDeleteStudent (js "7")) (env_of true server_error) st)
        = [DELETE_student (js "7")]
      /\ students (final_state (handleDeleteStudent (js "7")) (env_of true server_error) st)
         = [old]).
Proof.
  cbv zeta.
  pose proof (failure_leaves_students (env_of true server_error)
    (with_form jane [student "7" "Old" "old@b.com" "CS101"]
       (Some (student "7" "Old" "old@b.com" "CS101"))) (js "7")) as (Ha & _ & Hd).
  pose proof (failure_leaves_students (env_of true offline)
    (with_form jane [student "7" "Old" "old@b.com" "CS101"]
       (Some (student "7" "Old" "old@b.com" "CS101"))) (js "7")) as (_ & He & _).
  split; [|split].
  - split; [vm_compute; reflexivity | apply Ha; reflexivity].
  - split; [vm_compute; reflexivity | apply He; intros; exact I].
  - split; [vm_compute; reflexivity | apply Hd; reflexivity].
Defined.

End Crud.

Module Hook.
Import Requests Scenario UseStudents.

Ltac exec_hook :=
  cbv [useStudents final_state run fetchStudents setStudents setLoading setError
       fetch settle throw_unless_ok json_students emit modify throw
       try_catch try_finally mbind M_bind bind mret M_ret ret
       state trace fst snd] in *;
  cbn [students loading error negb] in *.

Lemma useStudents_loading env : loading (useStudents env) = false.
Proof.
  exec_hook.
  destruct (network env request) as [e|r]; [reflexivity|].
  destruct (ok r); exec_hook; [|reflexivity].
  destruct (json r) as [e|[s|l|l]]; reflexivity.
Qed.

Lemma useStudents_failure env :
  request_fails (network env request) ->
  students (useStudents env) = []
  /\ error (useStudents env) = Some (failure_message (network env request)).
Proof.
  intros Hf. exec_hook.
  destruct (network env request) as [e|r]; [split; reflexivity|].
  simpl in Hf. rewrite Hf. split; reflexivity.
Qed.

(** The hook from start to end: it starts with the loading flag set and,
    whatever the outcome of the request, returns it cleared once the
    request has settled.  When the request fails (rejected promise, or a status that
    is not 2xx) the list of students is still the initial empty list and
    the error is the message of the failure. *)
Theorem useStudents_settles (env : Env) :
  loading initial = true
  /\ loading (useStudents env) = false
  /\ (request_fails (network env request) ->
        students (useStudents env) = []
        /\ error (useStudents env) = Some (failure_message (network env request))).
Proof.
  split; [reflexivity|]. split; [apply useStudents_loading|apply useStudents_failure].
Qed.

Lemma useStudents_settles_witness :
  (request_fails (network (env_of true server_error) request)
   /\ loading (useStudents (env_of true server_error)) = false
   /\ students (useStudents (env_of true server_error)) = []
   /\ error (useStudents (env_of true server_error))
      = Some (js "HTTP error! status: 500"))
  /\ (request_fails (network (env_of true offline) request)
      /\ error (useStudents (env_of true offline)) = Some (js "Failed to fetch")).
Proof.
  destruct (useStudents_settles (env_of true server_error)) as (_ & Hl & Hf).
  destruct (useStudents_settles (env_of true offline)) as (_ & _ & Hg).
  split.
  - split; [reflexivity|]. split; [exact Hl|]. apply Hf. reflexivity.
  - split; [exact I|]. apply Hg. exact I.
Defined.

End Hook.

Module HookTiming.
Import Requests Scenario Vocabulary UseStudents.

Ltac exec_async :=
  cbv [Async.pending Async.settled Async.drive Async.sent
       UseStudentsAsync.fetchStudents UseStudentsAsync.setStudents
       UseStudentsAsync.setLoading UseStudentsAsync.setError
       Async.try_finally Async.try_catch Async.finally_step Async.catch_step
       Async.keep_outcome Async.fetch Async.throw_unless_ok Async.json_students
       Async.bind Async.bind_step Async.ret Async.throw Async.modify
       mbind Async.Task_bind mret Async.Task_ret fst snd] in *;
  cbn [students loading error negb] in *.

(** The suspension-by-suspension run ends in the state the hook returns. *)
Lemma async_settled_useStudents env :
  Async.settled env (UseStudentsAsync.fetchStudents initial) = useStudents env.
Proof.
  exec_async. Hook.exec_hook.
  destruct (network env request) as [e|r]; [reflexivity|].
  exec_async. Hook.exec_hook.
  destruct (ok r); exec_async; Hook.exec_hook; [|reflexivity].
  destruct (json r) as [e|[s|l|l]]; reflexivity.
Qed.

(** C8.  The hook starts with the loading flag set.  The effect leaves it
    set while it waits: it sends its request from the initial state, and
    in every state in which it is suspended, on the request or on the
    reading of the body, the flag is still set.  Once it has finished the
    flag is cleared, whatever the outcome, and the state is the one the
    hook returns.  When the request fails (rejected promise, or a status
    that is not 2xx) the list of students is still the initial empty
    list and the error is the message of the failure. *)
Theorem useStudents_loading_until_settled (env : Env) :
  let task := UseStudentsAsync.fetchStudents initial in
  loading initial = true
  /\ hd_error (Async.pending env task) = Some initial
  /\ Forall (fun s => loading s = true) (Async.pending env task)
  /\ Async.sent env task = [request]
  /\ loading (Async.settled env task) = false
  /\ Async.settled env task = useStudents env
  /\ (request_fails (network env request) ->
        students (Async.settled env task) = []
        /\ error (Async.settled env task) = Some (failure_message (network env request))).
Proof.
  cbv zeta. split; [reflexivity|].
  split; [|split; [|split; [|split; [|split]]]].
  - exec_async. destruct (network env request) as [e|r]; [reflexivity|].
    destruct (ok r); exec_async; [|reflexivity].
    destruct (json r) as [e|[s|l|l]]; reflexivity.
  - exec_async. destruct (network env request) as [e|r]; [repeat constructor|].
    destruct (ok r); exec_async; [|repeat constructor].
    destruct (json r) as [e|[s|l|l]]; repeat constructor.
  - exec_async. destruct (network env request) as [e|r]; [reflexivity|].
    destruct (ok r); exec_async; [|reflexivity].
    destruct (json r) as [e|[s|l|l]]; reflexivity.
  - rewrite async_settled_useStudents. apply Hook.useStudents_loading.
  - apply async_settled_useStudents.
  - rewrite async_settled_useStudents. apply Hook.useStudents_failure.
Qed.

Lemma useStudents_loading_until_settled_witness :
  let task := UseStudentsAsync.fetchStudents initial in
  let served := Fulfilled {| status := 200; json := inr (JsonStudents
                   [student "7" "Jane Doe" "jane@example.com" "CS101"]) |} in
  (Async.pending (env_of true served) task = [initial; initial]
   /\ Forall (fun s => loading s = true) (Async.pending (env_of true served) task)
   /\ loading (Async.settled (env_of true served) task) = false)
  /\ (request_fails (network (env_of true server_error) request)
      /\ Async.pending (env_of true server_error) task = [initial]
      /\ loading (Async.settled (env_of true server_error) task) = false
      /\ students (Async.settled (env_of true server_error) task) = []
      /\ error (Async.settled (env_of true server_error) task)
         = Some (js "HTTP error! status: 500")).
Proof.
  cbv zeta.
  destruct (useStudents_loading_until_settled
              (env_of true (Fulfilled {| status := 200; json := inr (JsonStudents
                 [student "7" "Jane Doe" "jane@example.com" "CS101"]) |})))
    as (_ & _ & Hp & _ & Hl & _).
  destruct (useStudents_loading_until_settled (env_of true server_error))
    as (_ & _ & _ & _ & Hl' & _ & Hf).
  split.
  - split; [reflexivity|]. split; [exact Hp | exact Hl].
  - split; [reflexivity|]. split; [reflexivity|]. split; [exact Hl'|].
    apply Hf. reflexivity.
Defined.

End HookTiming.

Module Lookup.
Import ListFacts Requests Scenario App.

(** C9.  [getCourseName] returns the name of the first course of the
    list whose code is the given code, and the given code itself when no
    course of the list has that code (in particular for the empty
    list). *)
Theorem getCourseName_lookup (courses : list Course.t) (courseCode : list N) :
  (forall before c after,
     courses = before ++ c :: after ->
     Course.code c = courseCode ->
     Forall (fun x => Course.code x <> courseCode) before ->
     getCourseName courses courseCode = Course.name c)
  /\ (Forall (fun x => Course.code x <> courseCode) courses ->
      getCourseName courses courseCode = courseCode).
Proof.
  unfold getCourseName. split.
  - intros before c after -> Hc Hb.
    induction Hb as [|x before Hx _ IH]; simpl.
    + apply strict_eq_true in Hc. now rewrite Hc.
    + apply strict_eq_false in Hx. now rewrite Hx.
  - intros Hall. induction Hall as [|x l Hx _ IH]; simpl; [reflexivity|].
    apply strict_eq_false in Hx. now rewrite Hx.
Qed.

Lemma getCourseName_lookup_witness :
  let intro := {| Course.id := js "1"; Course.code := js "CS101"; Course.name := js "Intro to CS" |} in
  let again := {| Course.id := js "2"; Course.code := js "CS101"; Course.name := js "Duplicate" |} in
  getCourseName [intro; again] (js "CS101") = js "Intro to CS"
  /\ getCourseName [intro; again] (js "UNKNOWN") = js "UNKNOWN"
  /\ getCourseName [] (js "CS101") = js "CS101".
Proof.
  cbv zeta. split; [|split].
  - apply (proj1 (getCourseName_lookup
             [{| Course.id := js "1"; Course.code := js "CS101"; Course.name := js "Intro to CS" |};
              {| Course.id := js "2"; Course.code := js "CS101"; Course.name := js "Duplicate" |}]
             (js "CS101")) []
             {| Course.id := js "1"; Course.code := js "CS101"; Course.name := js "Intro to CS" |}
             [{| Course.id := js "2"; Course.code := js "CS101"; Course.name := js "Duplicate" |}]).
    + reflexivity.
    + reflexivity.
    + constructor.
  - apply (getCourseName_lookup
             [{| Course.id := js "1"; Course.code := js "CS101"; Course.name := js "Intro to CS" |};
              {| Course.id := js "2"; Course.code := js "CS101"; Course.name := js "Duplicate" |}]
             (js "UNKNOWN")).
    repeat constructor; discriminate.
  - apply (getCourseName_lookup [] (js "CS101")). constructor.
Defined.

End Lookup.

(* ===================================================================== *)
(** * Further properties of the component *)
(* ===================================================================== *)

Module ValidationMore.
Import RegExp Shape EmailFacts ValidationFacts Requests Scenario Vocabulary App.

Lemma truthy_true s : truthy s = true <-> s <> [].
Proof. destruct s; simpl; split; congruence. Qed.

Lemma truthy_trim s :
  truthy (trim s) = true <-> ~ Forall (fun c => is_whitespace c = true) s.
Proof. rewrite truthy_true, trim_nil. reflexivity. Qed.

(** A string of the accepted shape has no whitespace, so it is not blank. *)
Lemma email_shape_plain s :
  email_shape s -> Forall (fun c => is_whitespace c = false) s.
Proof.
  intros (l & d & t & -> & [_ Hl] & [_ Hd] & [_ Ht]).
  assert (P : forall x, Forall plain x -> Forall (fun c => is_whitespace c = false) x).
  { intros x Hx. eapply List.Forall_impl; [|exact Hx]. intros c [Hc _]. exact Hc. }
  apply Forall_app. split; [auto|].
  constructor; [reflexivity|].
  apply Forall_app. split; [auto|].
  constructor; [reflexivity|auto].
Qed.

Lemma email_shape_not_blank s :
  email_shape s -> ~ Forall (fun c => is_whitespace c = true) s.
Proof.
  intros Hs Hb. pose proof (email_shape_plain s Hs) as Hp.
  destruct Hs as (l & d & t & -> & [Hne _] & _).
  destruct l as [|c l]; [congruence|].
  inversion Hb; subst. inversion Hp; subst. congruence.
Qed.

(** X1.  [validateForm] reports the form valid exactly when the name has
    a character that is not whitespace, the e-mail has the accepted
    shape, and a course is selected. *)
Theorem validateForm_verdict (env : Env) (st : State) :
  result validateForm env st = Returned true
  <-> (~ Forall (fun c => is_whitespace c = true) (FormData.name (formData st))
       /\ email_shape (FormData.email (formData st))
       /\ FormData.course (formData st) <> []).
Proof.
  unfold result, run. rewrite validateForm_run. cbn [fst state].
  rewrite newErrors_size.
  split.
  - intros H. injection H as H.
    apply andb_true_iff in H as [H Hc]. apply andb_true_iff in H as [Hn H].
    apply andb_true_iff in H as [_ Hm].
    split; [now apply truthy_trim|]. split; [now apply email_test_shape|].
    now apply truthy_true.
  - intros (Hn & Hm & Hc). f_equal.
    apply truthy_trim in Hn. apply truthy_true in Hc.
    pose proof (proj2 (truthy_trim _) (email_shape_not_blank _ Hm)) as He.
    apply email_test_shape in Hm. now rewrite Hn, He, Hm, Hc.
Qed.

(** X2.  The [name] entry of the errors is set exactly when every
    character of the name is whitespace (an empty name included);
    no other message is ever stored under [name]. *)
Theorem name_rule_whitespace (env : Env) (st : State) :
  let result := errors (final_state validateForm env st) in
  (result !! js "name" = Some (js "Name is required")
   <-> Forall (fun c => is_whitespace c = true) (FormData.name (formData st)))
  /\ (result !! js "name" = None
      <-> ~ Forall (fun c => is_whitespace c = true) (FormData.name (formData st))).
Proof.
  cbv zeta. unfold final_state, run. rewrite validateForm_run.
  cbn [snd state with_errors errors]. rewrite newErrors_name, <- trim_nil.
  destruct (truthy (trim (FormData.name (formData st)))) eqn:Hn.
  - apply truthy_true in Hn. intuition congruence.
  - apply truthy_false in Hn. intuition congruence.
Qed.

Lemma count_occ_plain x : Forall plain x -> count_occ N.eq_dec x 64 = 0%nat.
Proof.
  induction 1 as [|c x [_ Hc] _ IH]; simpl; [reflexivity|].
  destruct (N.eq_dec c 64); [congruence|exact IH].
Qed.

(** X3.  An e-mail that [validateForm] accepts (no [email] error) has no
    whitespace anywhere, not even at its ends, has exactly one [@], and
    has a dot. *)
Theorem accepted_email_form (env : Env) (st : State) :
  errors (final_state validateForm env st) !! js "email" = None ->
  let e := FormData.email (formData st) in
  Forall (fun c => is_whitespace c = false) e
  /\ count_occ N.eq_dec e 64 = 1%nat
  /\ In 46 e.
Proof.
  unfold final_state, run. rewrite validateForm_run.
  cbn [snd state with_errors errors]. rewrite newErrors_email.
  destruct (truthy (trim _)); [|discriminate].
  destruct (test email_pattern _) eqn:Hm; [|discriminate].
  intros _. cbv zeta. apply email_test_shape in Hm.
  split; [now apply email_shape_plain|].
  destruct Hm as (l & d & t & -> & [_ Hl] & [_ Hd] & [_ Ht]). split.
  - rewrite count_occ_app. simpl. rewrite count_occ_app. simpl.
    rewrite !count_occ_plain by assumption. reflexivity.
  - apply in_or_app. right. right. apply in_or_app. right. left. reflexivity.
Qed.

Lemma accepted_email_form_witness :
  let st := with_form jane [] None in
  errors (final_state validateForm (env_of true offline) st) !! js "email" = None
  /\ count_occ N.eq_dec (FormData.email (formData st)) 64 = 1%nat.
Proof.
  cbv zeta. split; [vm_compute; reflexivity|].
  apply (accepted_email_form (env_of true offline) (with_form jane [] None)).
  vm_compute. reflexivity.
Defined.

(** X4.  Whitespace around an e-mail is not forgiven: an e-mail with a
    leading or trailing whitespace character that is not blank
    altogether gets the error "Please enter a valid email address",
    although the emptiness test trims. *)
Theorem padded_email_rejected (env : Env) (st : State) (c : N) (rest : list N) :
  is_whitespace c = true ->
  ~ Forall (fun c => is_whitespace c = true) rest ->
  (FormData.email (formData st) = c :: rest \/ FormData.email (formData st) = rest ++ [c]) ->
  errors (final_state validateForm env st) !! js "email"
  = Some (js "Please enter a valid email address").
Proof.
  intros Hc Hrest He.
  unfold final_state, run. rewrite validateForm_run.
  cbn [snd state with_errors errors]. rewrite newErrors_email.
  assert (Hnb : truthy (trim (FormData.email (formData st))) = true).
  { apply truthy_trim. intros Hall. apply Hrest.
    destruct He as [E|E]; rewrite E in Hall.
    - now inversion Hall.
    - apply Forall_app in Hall. tauto. }
  rewrite Hnb.
  destruct (test email_pattern _) eqn:Hm; [|reflexivity].
  exfalso. apply email_test_shape, email_shape_plain in Hm.
  destruct He as [E|E]; rewrite E in Hm.
  - inversion Hm; congruence.
  - apply Forall_app in Hm as [_ Hm]. inversion Hm; congruence.
Qed.

Lemma padded_email_rejected_witness :
  errors (final_state validateForm (env_of true offline)
            (with_form (form "Jane Doe" " jane@example.com" "CS101") [] None)) !! js "email"
  = Some (js "Please enter a valid email address").
Proof.
  apply (padded_email_rejected (env_of true offline)
           (with_form (form "Jane Doe" " jane@example.com" "CS101") [] None)
           32 (js "jane@example.com")).
  - reflexivity.
  - intros H. inversion H. discriminate.
  - left. reflexivity.
Defined.

End ValidationMore.

Module CrudMore.
Import ValidationFacts ListFacts HandlerFacts Crud Requests Scenario Vocabulary App.

Lemma add_success_run (env : Env) (st : State) (s : Student.t) :
  newErrors (formData st) = ∅ ->
  succeeds_with (network env (POST_student (formData st))) s ->
  run handleAddStudent env st =
  (Returned tt,
   {| state := {| students := students st ++ [s]; courses := courses st;
                  isAddDialogOpen := false;
                  isEditDialogOpen := isEditDialogOpen st;
                  editingStudent := None; formData := emptyForm; errors := ∅ |};
      trace := [PreventDefault; Fetch (POST_student (formData st))] |}).
Proof.
  intros Hv (r & Hn & Hok & Hj). apply valid_iff in Hv.
  exec. rewrite Hv. exec. rewrite Hn. exec. rewrite Hok. exec. rewrite Hj.
  reflexivity.
Qed.

(** X5.  A successful create empties the form, clears the errors and
    closes the add dialog; the new record is appended, exactly one
    request is sent and nothing is logged. *)
Theorem create_success_run (env : Env) (st : State) (s : Student.t) :
  newErrors (formData st) = ∅ ->
  succeeds_with (network env (POST_student (formData st))) s ->
  run handleAddStudent env st =
  (Returned tt,
   {| state := {| students := students st ++ [s]; courses := courses st;
                  isAddDialogOpen := false;
                  isEditDialogOpen := isEditDialogOpen st;
                  editingStudent := None; formData := emptyForm; errors := ∅ |};
      trace := [PreventDefault; Fetch (POST_student (formData st))] |}).
Proof. apply add_success_run. Qed.

Lemma create_success_run_witness :
  let s := student "42" "A" "a@b.com" "CS101" in
  let st := with_form jane [] None in
  formData (final_state handleAddStudent (env_of true (created s)) st) = emptyForm
  /\ isAddDialogOpen (final_state handleAddStudent (env_of true (created s)) st) = false.
Proof.
  cbv zeta. unfold final_state.
  rewrite (create_success_run (env_of true (created (student "42" "A" "a@b.com" "CS101")))
             (with_form jane [] None) (student "42" "A" "a@b.com" "CS101")).
  - split; reflexivity.
  - vm_compute. reflexivity.
  - eexists. split; [reflexivity|]. split; reflexivity.
Defined.

(** X6.  A create that fails (rejected promise, status outside 2xx, or a
    2xx response whose body cannot be read) keeps what the user typed and
    leaves the dialogs as they are: the state only has its errors
    cleared by the validation that passed, and the error is logged once
    under "Error adding student:". *)
Theorem create_failure_run (env : Env) (st : State) (err : JS.Error) :
  newErrors (formData st) = ∅ ->
  raised (network env (POST_student (formData st))) = Some err ->
  run handleAddStudent env st =
  (Returned tt,
   {| state := with_errors ∅ st;
      trace := [PreventDefault; Fetch (POST_student (formData st));
                ConsoleError (js "Error adding student:") err] |}).
Proof.
  intros Hv Hr. pose proof Hv as Hv'. apply valid_iff in Hv.
  exec. rewrite Hv, Hv'. exec. unfold raised in Hr.
  destruct (network env _) as [e|r]; exec.
  - injection Hr as ->. reflexivity.
  - destruct (ok r); exec.
    + destruct (json r) as [e|j]; [|discriminate]. injection Hr as ->. reflexivity.
    + injection Hr as <-. reflexivity.
Qed.

Lemma create_failure_run_witness :
  let st := with_form jane [] None in
  formData (final_state handleAddStudent (env_of true offline) st) = jane
  /\ effects handleAddStudent (env_of true offline) st
     = [PreventDefault; Fetch (POST_student jane);
        ConsoleError (js "Error adding student:") {| message := js "Failed to fetch" |}].
Proof.
  cbv zeta. unfold final_state, effects.
  rewrite (create_failure_run (env_of true offline) (with_form jane [] None)
             {| message := js "Failed to fetch" |}).
  - split; reflexivity.
  - vm_compute. reflexivity.
  - reflexivity.
Defined.

(** X7.  A successful update empties the form, clears the errors, closes
    the edit dialog and forgets the student being edited.  The request
    goes to the id of the student being edited, while the replacement in
    the list goes by the id of the returned record. *)
Theorem update_success_run (env : Env) (st : State) (e upd : Student.t) :
  newErrors (formData st) = ∅ ->
  editingStudent st = Some e ->
  succeeds_with (network env (PUT_student (Student.id e) (formData st))) upd ->
  run handleEditStudent env st =
  (Returned tt,
   {| state := {| students := replace_by_id upd (students st); courses := courses st;
                  isAddDialogOpen := isAddDialogOpen st;
                  isEditDialogOpen := false;
                  editingStudent := None; formData := emptyForm; errors := ∅ |};
      trace := [PreventDefault; Fetch (PUT_student (Student.id e) (formData st))] |}).
Proof.
  intros Hv He (r & Hn & Hok & Hj). apply valid_iff in Hv.
  exec. rewrite Hv. exec. rewrite He. exec. rewrite Hn. exec. rewrite Hok. exec.
  rewrite Hj. reflexivity.
Qed.

Lemma update_success_run_witness :
  let old := student "7" "Old" "old@b.com" "CS101" in
  let upd := student "7" "New" "new@b.com" "CS101" in
  let st := with_form (form "New" "new@b.com" "CS101") [old] (Some old) in
  editingStudent (final_state handleEditStudent (env_of true (updated upd)) st) = None
  /\ requests (effects handleEditStudent (env_of true (updated upd)) st)
     = [PUT_student (js "7") (form "New" "new@b.com" "CS101")].
Proof.
  cbv zeta. unfold final_state, effects.
  rewrite (update_success_run
             (env_of true (updated (student "7" "New" "new@b.com" "CS101")))
             (with_form (form "New" "new@b.com" "CS101")
                [student "7" "Old" "old@b.com" "CS101"]
                (Some (student "7" "Old" "old@b.com" "CS101")))
             (student "7" "Old" "old@b.com" "CS101")
             (student "7" "New" "new@b.com" "CS101")).
  - split; reflexivity.
  - vm_compute. reflexivity.
  - reflexivity.
  - eexists. split; [reflexivity|]. split; reflexivity.
Defined.

(** X8.  Submitting the edit form while no student is being edited sends
    no request: reading the id of [null] throws inside the [try], the
    error is logged under "Error updating student:", and the state only
    has its errors cleared by the validation that passed. *)
Theorem update_without_student (env : Env) (st : State) :
  newErrors (formData st) = ∅ ->
  editingStudent st = None ->
  exists err,
    run handleEditStudent env st =
    (Returned tt,
     {| state := with_errors ∅ st;
        trace := [PreventDefault; ConsoleError (js "Error updating student:") err] |}).
Proof.
  intros Hv He. pose proof Hv as Hv'. apply valid_iff in Hv.
  eexists. exec. rewrite Hv, Hv'. exec. rewrite He. reflexivity.
Qed.

Lemma update_without_student_witness :
  requests (effects handleEditStudent
              (env_of true (updated (student "7" "New" "new@b.com" "CS101")))
              (with_form jane [student "7" "Old" "old@b.com" "CS101"] None)) = []
  /\ students (final_state handleEditStudent
              (env_of true (updated (student "7" "New" "new@b.com" "CS101")))
              (with_form jane [student "7" "Old" "old@b.com" "CS101"] None))
     = [student "7" "Old" "old@b.com" "CS101"].
Proof.
  destruct (update_without_student
              (env_of true (updated (student "7" "New" "new@b.com" "CS101")))
              (with_form jane [student "7" "Old" "old@b.com" "CS101"] None))
    as (err & H).
  - vm_compute. reflexivity.
  - reflexivity.
  - unfold effects, final_state. rewrite H. split; reflexivity.
Defined.

Lemma edit_requests (env : Env) (st : State) :
  requests (effects handleEditStudent env st) =
  match editingStudent st with
  | Some e =>
      if Nat.eqb (size (newErrors (formData st))) 0
      then [PUT_student (Student.id e) (formData st)] else []
  | None => []
  end.
Proof.
  exec.
  destruct (Nat.eqb (size (newErrors (formData st))) 0); exec;
    [|destruct (editingStudent st); reflexivity].
  destruct (editingStudent st) as [e|]; exec; [|reflexivity].
  destruct (network env _) as [err|r]; [reflexivity|]. exec.
  destruct (ok r); exec; [|reflexivity].
  destruct (json r) as [err|[s|l|l]]; reflexivity.
Qed.

(** X9.  The requests of the edit handler: the PUT to the id of the
    student being edited with the form as body when the form is valid
    and a student is being edited; none otherwise. *)
Theorem update_requests (env : Env) (st : State) :
  requests (effects handleEditStudent env st) =
  match editingStudent st with
  | Some e =>
      if Nat.eqb (size (newErrors (formData st))) 0
      then [PUT_student (Student.id e) (formData st)] else []
  | None => []
  end.
Proof. apply edit_requests. Qed.

(** The three ways the list of students can come out of a handler. *)
Lemma add_cases env st :
  students (final_state handleAddStudent env st) = students st
  \/ exists s, newErrors (formData st) = ∅
               /\ succeeds_with (network env (POST_student (formData st))) s
               /\ students (final_state handleAddStudent env st) = students st ++ [s].
Proof.
  destruct (Nat.eqb (size (newErrors (formData st))) 0) eqn:Hv.
  - destruct (network env (POST_student (formData st))) as [e|r] eqn:Hn.
    + left. apply add_students_failure. now rewrite Hn.
    + destruct (ok r) eqn:Hok.
      * destruct (json r) as [e|[s|l|l]] eqn:Hj.
        -- left. exec. rewrite Hv. exec. rewrite Hn. exec. rewrite Hok. exec.
           rewrite Hj. reflexivity.
        -- right. exists s.
           split; [now apply valid_iff|]. split; [exists r; auto|].
           apply add_students_success; [exact Hv|]. exists r. rewrite Hn. auto.
        -- left. exec. rewrite Hv. exec. rewrite Hn. exec. rewrite Hok. exec.
           rewrite Hj. reflexivity.
        -- left. exec. rewrite Hv. exec. rewrite Hn. exec. rewrite Hok. exec.
           rewrite Hj. reflexivity.
      * left. apply add_students_failure. now rewrite Hn.
  - left. unfold final_state. now rewrite (add_invalid env st Hv).
Qed.

Lemma edit_cases env st :
  students (final_state handleEditStudent env st) = students st
  \/ exists upd,
       students (final_state handleEditStudent env st) = replace_by_id upd (students st).
Proof.
  destruct (Nat.eqb (size (newErrors (formData st))) 0) eqn:Hv.
  - destruct (editingStudent st) as [e|] eqn:He.
    + destruct (network env (PUT_student (Student.id e) (formData st))) as [err|r] eqn:Hn.
      * left. apply edit_students_failure. intros e' E. rewrite He in E.
        injection E as <-. now rewrite Hn.
      * destruct (ok r) eqn:Hok.
        -- destruct (json r) as [err|[s|l|l]] eqn:Hj.
           ++ left. exec. rewrite Hv. exec. rewrite He. exec. rewrite Hn. exec.
              rewrite Hok. exec. rewrite Hj. reflexivity.
           ++ right. exists s. apply (edit_students_success env st e s Hv He).
              exists r. rewrite Hn. auto.
           ++ left. exec. rewrite Hv. exec. rewrite He. exec. rewrite Hn. exec.
              rewrite Hok. exec. rewrite Hj. reflexivity.
           ++ left. exec. rewrite Hv. exec. rewrite He. exec. rewrite Hn. exec.
              rewrite Hok. exec. rewrite Hj. reflexivity.
        -- left. apply edit_students_failure. intros e' E. rewrite He in E.
           injection E as <-. now rewrite Hn.
    + left. apply edit_students_failure. intros e' E. congruence.
  - left. exec. rewrite Hv. reflexivity.
Qed.

Lemma delete_cases env st id :
  students (final_state (handleDeleteStudent id) env st) = students st
  \/ students (final_state (handleDeleteStudent id) env st)
     = List.filter (fun s => negb (strict_eq (Student.id s) id)) (students st).
Proof.
  destruct (window_confirm env (js "Are you sure you want to delete this student?")) eqn:Hc.
  - destruct (network env (DELETE_student id)) as [err|r] eqn:Hn.
    + left. apply delete_students_failure. now rewrite Hn.
    + destruct (ok r) eqn:Hok.
      * right. now apply (delete_students_success env st id r).
      * left. apply delete_students_failure. now rewrite Hn.
  - left. unfold final_state. now rewrite (delete_declined env st id Hc).
Qed.

Lemma ids_replace_by_id upd l : ids (replace_by_id upd l) = ids l.
Proof.
  unfold ids, replace_by_id. induction l as [|a l IH]; simpl; [reflexivity|].
  rewrite IH. destruct (strict_eq (Student.id a) (Student.id upd)) eqn:E; [|reflexivity].
  apply strict_eq_true in E. now rewrite E.
Qed.

Lemma ids_filter_NoDup (p : Student.t -> bool) l :
  NoDup (ids l) -> NoDup (ids (List.filter p l)).
Proof.
  unfold ids. induction l as [|a l IH]; simpl; intros H; [exact H|].
  apply NoDup_cons in H as [Ha H].
  destruct (p a); simpl; [|auto].
  apply NoDup_cons. split; [|auto].
  intros Hin. apply Ha. apply list_elem_of_In in Hin. apply list_elem_of_In.
  apply in_map_iff in Hin as (x & Hx & Hin). apply in_map_iff.
  exists x. split; [exact Hx|]. apply filter_In in Hin. tauto.
Qed.

Lemma edit_ids (env : Env) (st : State) :
  ids (students (final_state handleEditStudent env st)) = ids (students st).
Proof.
  destruct (edit_cases env st) as [H|(upd & H)]; rewrite H;
    [reflexivity | apply ids_replace_by_id].
Qed.

(** X10.  Whatever the environment, the edit handler leaves the
    identifiers of the list and their order as they were: an update never
    adds, removes, renames or moves an entry. *)
Theorem update_keeps_ids (env : Env) (st : State) :
  ids (students (final_state handleEditStudent env st)) = ids (students st).
Proof. apply edit_ids. Qed.

(** X11.  Identifiers stay unique.  If no two entries of the list share
    an id, this still holds after the edit handler and after the delete
    handler, whatever the environment, and after the create handler
    provided the record the server returns carries an id that is not in
    the list. *)
Theorem unique_ids_kept (env : Env) (st : State) (id : list N) :
  NoDup (ids (students st)) ->
  NoDup (ids (students (final_state handleEditStudent env st)))
  /\ NoDup (ids (students (final_state (handleDeleteStudent id) env st)))
  /\ ((forall s, succeeds_with (network env (POST_student (formData st))) s ->
                 ~ In (Student.id s) (ids (students st))) ->
      NoDup (ids (students (final_state handleAddStudent env st)))).
Proof.
  intros Hnd. split; [|split].
  - now rewrite edit_ids.
  - destruct (delete_cases env st id) as [H|H]; rewrite H; [exact Hnd|].
    now apply ids_filter_NoDup.
  - intros Hfresh. destruct (add_cases env st) as [H|(s & _ & Hs & H)]; rewrite H;
      [exact Hnd|].
    unfold ids. rewrite map_app. simpl.
    apply NoDup_app. split; [exact Hnd|]. split.
    + intros x Hx Hx'. apply list_elem_of_In in Hx. apply list_elem_of_In in Hx'.
      destruct Hx' as [<-|[]]. now apply (Hfresh s Hs).
    + apply NoDup_singleton.
Qed.

Lemma unique_ids_kept_witness :
  let seven := student "7" "Old" "old@b.com" "CS101" in
  let eight := student "8" "Other" "o@b.com" "MA201" in
  let s := student "42" "A" "a@b.com" "CS101" in
  let st := with_form jane [seven; eight] (Some seven) in
  NoDup (ids (students st))
  /\ NoDup (ids (students (final_state handleAddStudent (env_of true (created s)) st)))
  /\ length (students (final_state handleAddStudent (env_of true (created s)) st)) = 3%nat.
Proof.
  cbv zeta.
  assert (Hnd : NoDup (ids (students
            (with_form jane [student "7" "Old" "old@b.com" "CS101";
                             student "8" "Other" "o@b.com" "MA201"]
               (Some (student "7" "Old" "old@b.com" "CS101")))))).
  { apply NoDup_ListNoDup. repeat constructor; simpl; intuition discriminate. }
  split; [exact Hnd|]. split; [|vm_compute; reflexivity].
  apply (unique_ids_kept (env_of true (created (student "42" "A" "a@b.com" "CS101")))
           (with_form jane [student "7" "Old" "old@b.com" "CS101";
                            student "8" "Other" "o@b.com" "MA201"]
              (Some (student "7" "Old" "old@b.com" "CS101")))
           (js "7") Hnd).
  intros s (r & Hn & _ & Hj). injection Hn as <-. injection Hj as <-.
  simpl. intuition discriminate.
Defined.

Lemma filter_out_absent id l :
  Forall (fun s => Student.id s <> id) l ->
  List.filter (fun s => negb (strict_eq (Student.id s) id)) l = l.
Proof.
  induction 1 as [|a l Ha _ IH]; simpl; [reflexivity|].
  apply strict_eq_false in Ha. rewrite Ha. simpl. now rewrite IH.
Qed.

Lemma filter_out_twice id l :
  List.filter (fun s => negb (strict_eq (Student.id s) id))
    (List.filter (fun s => negb (strict_eq (Student.id s) id)) l)
  = List.filter (fun s => negb (strict_eq (Student.id s) id)) l.
Proof. apply filter_out_absent, filter_out_id. Qed.



(** X13.  The delete handler touches nothing but the list of students:
    form, errors, dialogs, courses and the student being edited are the
    same after it, whatever the environment. *)
Theorem delete_frame (env : Env) (st : State) (id : list N) :
  same_but_students (final_state (handleDeleteStudent id) env st) st.
Proof.
  unfold same_but_students. exec.
  destruct (window_confirm env _); exec; [|repeat split].
  destruct (network env _) as [e|r]; exec; [repeat split|].
  destruct (ok r); exec; repeat split.
Qed.

(** X14.  Once a delete of an id has gone through (confirmed, 2xx),
    deleting the same id again changes nothing, however the second run
    is answered: declined, failed or successful, the list stays as the
    first run left it. *)
Theorem delete_again_noop (env env' : Env) (st : State) (id : list N) (r : Response) :
  window_confirm env (js "Are you sure you want to delete this student?") = true ->
  network env (DELETE_student id) = Fulfilled r ->
  ok r = true ->
  students (final_state (handleDeleteStudent id) env'
              (final_state (handleDeleteStudent id) env st))
  = students (final_state (handleDeleteStudent id) env st).
Proof.
  intros Hc Hn Hok.
  destruct (delete_cases env' (final_state (handleDeleteStudent id) env st) id) as [H|H];
    [exact H|].
  rewrite H, (delete_students_success env st id r Hc Hn Hok).
  apply filter_out_twice.
Qed.

Lemma delete_again_noop_witness :
  let nine := student "9" "Nine" "n@b.com" "CS101" in
  let other := student "8" "Other" "o@b.com" "MA201" in
  let gone := Fulfilled {| status := 204; json := inl {| message := [] |} |} in
  let st := with_form emptyForm [nine; other] None in
  students (final_state (handleDeleteStudent (js "9")) (env_of true gone) st) = [other]
  /\ students (final_state (handleDeleteStudent (js "9")) (env_of true (updated nine))
                (final_state (handleDeleteStudent (js "9")) (env_of true gone) st))
     = [other].
Proof.
  cbv zeta. split; [vm_compute; reflexivity|].
  rewrite (delete_again_noop
             (env_of true (Fulfilled {| status := 204; json := inl {| message := [] |} |}))
             (env_of true (updated (student "9" "Nine" "n@b.com" "CS101")))
             (with_form emptyForm
                [student "9" "Nine" "n@b.com" "CS101"; student "8" "Other" "o@b.com" "MA201"]
                None)
             (js "9") {| status := 204; json := inl {| message := [] |} |});
    reflexivity.
Defined.

(** X15.  No handler retries: whatever the environment answers, one call
    of the create, edit or delete handler sends at most one request. *)
Theorem at_most_one_request (env : Env) (st : State) (id : list N) :
  (length (requests (effects handleAddStudent env st)) <= 1)%nat
  /\ (length (requests (effects handleEditStudent env st)) <= 1)%nat
  /\ (length (requests (effects (handleDeleteStudent id) env st)) <= 1)%nat.
Proof.
  split; [|split].
  - rewrite add_requests. destruct (Nat.eqb _ _); simpl; lia.
  - rewrite edit_requests. destruct (editingStudent st); [|simpl; lia].
    destruct (Nat.eqb _ _); simpl; lia.
  - exec. destruct (window_confirm env _); exec; [|simpl; lia].
    destruct (network env _) as [e|r]; exec; [simpl; lia|].
    destruct (ok r); exec; simpl; lia.
Qed.

(** X16.  Create then delete is a round trip: after a successful create
    whose returned id is not yet in the list, a confirmed and successful
    delete of that id gives back the list of students from before the
    create. *)
Theorem create_then_delete (env env' : Env) (st : State) (s : Student.t) (r : Response) :
  newErrors (formData st) = ∅ ->
  succeeds_with (network env (POST_student (formData st))) s ->
  Forall (fun x => Student.id x <> Student.id s) (students st) ->
  window_confirm env' (js "Are you sure you want to delete this student?") = true ->
  network env' (DELETE_student (Student.id s)) = Fulfilled r ->
  ok r = true ->
  students (final_state (handleDeleteStudent (Student.id s)) env'
              (final_state handleAddStudent env st))
  = students st.
Proof.
  intros Hv Hs Hfresh Hc Hn Hok.
  rewrite (delete_students_success env' _ (Student.id s) r Hc Hn Hok).
  apply valid_iff in Hv. rewrite (add_students_success env st s Hv Hs).
  rewrite List.filter_app, (filter_out_absent _ _ Hfresh). simpl.
  unfold strict_eq. rewrite bool_decide_eq_true_2 by reflexivity. simpl.
  apply app_nil_r.
Qed.

Lemma create_then_delete_witness :
  let s := student "42" "A" "a@b.com" "CS101" in
  let other := student "8" "Other" "o@b.com" "MA201" in
  let gone := Fulfilled {| status := 204; json := inl {| message := [] |} |} in
  students (final_state (handleDeleteStudent (js "42")) (env_of true gone)
              (final_state handleAddStudent (env_of true (created s))
                 (with_form jane [other] None)))
  = [other].
Proof.
  cbv zeta.
  apply (create_then_delete
           (env_of true (created (student "42" "A" "a@b.com" "CS101")))
           (env_of true (Fulfilled {| status := 204; json := inl {| message := [] |} |}))
           (with_form jane [student "8" "Other" "o@b.com" "MA201"] None)
           (student "42" "A" "a@b.com" "CS101")
           {| status := 204; json := inl {| message := [] |} |}).
  - vm_compute. reflexivity.
  - eexists. split; [reflexivity|]. split; reflexivity.
  - repeat constructor. discriminate.
  - reflexivity.
  - reflexivity.
  - reflexivity.
Defined.

(** X17.  After a successful create the form is empty, so submitting
    again once the first submit has completed is rejected by the
    validation: no second request is sent, the list is not touched, and
    the three required-field errors are shown. *)
Theorem create_then_resubmit (env env' : Env) (st : State) (s : Student.t) :
  newErrors (formData st) = ∅ ->
  succeeds_with (network env (POST_student (formData st))) s ->
  let st1 := final_state handleAddStudent env st in
  requests (effects handleAddStudent env' st1) = []
  /\ students (final_state handleAddStudent env' st1) = students st ++ [s]
  /\ errors (final_state handleAddStudent env' st1) !! js "name"
     = Some (js "Name is required")
  /\ errors (final_state handleAddStudent env' st1) !! js "email"
     = Some (js "Email is required")
  /\ errors (final_state handleAddStudent env' st1) !! js "course"
     = Some (js "Course selection is required").
Proof.
  intros Hv Hs. cbv zeta. unfold final_state at 1 3 5 7 9.
  rewrite (add_success_run env st s Hv Hs). cbn [snd state].
  assert (Hbad : Nat.eqb (size (newErrors emptyForm)) 0 = false) by (vm_compute; reflexivity).
  rewrite add_requests. cbn [formData]. rewrite Hbad.
  unfold final_state. rewrite add_invalid by exact Hbad.
  cbn [snd state with_errors students errors formData].
  repeat split; vm_compute; reflexivity.
Qed.

Lemma create_then_resubmit_witness :
  let s := student "42" "A" "a@b.com" "CS101" in
  let env := env_of true (created s) in
  requests (effects handleAddStudent env
              (final_state handleAddStudent env (with_form jane [] None))) = [].
Proof.
  cbv zeta.
  apply (create_then_resubmit
           (env_of true (created (student "42" "A" "a@b.com" "CS101")))
           (env_of true (created (student "42" "A" "a@b.com" "CS101")))
           (with_form jane [] None) (student "42" "A" "a@b.com" "CS101")).
  - vm_compute. reflexivity.
  - eexists. split; [reflexivity|]. split; reflexivity.
Defined.

(** X18.  An update that fails (rejected promise, status outside 2xx, or
    a 2xx response whose body cannot be read) keeps what the user typed,
    the student being edited and the dialogs, so the edit can be
    submitted again; the error is logged once under "Error updating
    student:". *)
Theorem update_failure_run (env : Env) (st : State) (e : Student.t) (err : JS.Error) :
  newErrors (formData st) = ∅ ->
  editingStudent st = Some e ->
  raised (network env (PUT_student (Student.id e) (formData st))) = Some err ->
  run handleEditStudent env st =
  (Returned tt,
   {| state := with_errors ∅ st;
      trace := [PreventDefault; Fetch (PUT_student (Student.id e) (formData st));
                ConsoleError (js "Error updating student:") err] |}).
Proof.
  intros Hv He Hr. pose proof Hv as Hv'. apply valid_iff in Hv.
  exec. rewrite Hv, Hv'. exec. rewrite He. exec. unfold raised in Hr.
  destruct (network env _) as [x|r]; exec.
  - injection Hr as ->. reflexivity.
  - destruct (ok r); exec.
    + destruct (json r) as [x|j]; [|discriminate]. injection Hr as ->. reflexivity.
    + injection Hr as <-. reflexivity.
Qed.

Lemma update_failure_run_witness :
  let old := student "7" "Old" "old@b.com" "CS101" in
  let st := with_form jane [old] (Some old) in
  editingStudent (final_state handleEditStudent (env_of true server_error) st) = Some old
  /\ formData (final_state handleEditStudent (env_of true server_error) st) = jane
  /\ effects handleEditStudent (env_of true server_error) st
     = [PreventDefault; Fetch (PUT_student (js "7") jane);
        ConsoleError (js "Error updating student:")
          {| message := js "HTTP error! status: 500" |}].
Proof.
  cbv zeta. unfold final_state, effects.
  rewrite (update_failure_run (env_of true server_error)
             (with_form jane [student "7" "Old" "old@b.com" "CS101"]
                (Some (student "7" "Old" "old@b.com" "CS101")))
             (student "7" "Old" "old@b.com" "CS101")
             {| message := js "HTTP error! status: 500" |}).
  - repeat split; reflexivity.
  - vm_compute. reflexivity.
  - reflexivity.
  - reflexivity.
Defined.

(** X19.  A confirmed delete whose request fails changes no state at
    all and logs the failure once under "Error deleting student:". *)
Theorem delete_failure_run (env : Env) (st : State) (id : list N) :
  window_confirm env (js "Are you sure you want to delete this student?") = true ->
  request_fails (network env (DELETE_student id)) ->
  run (handleDeleteStudent id) env st =
  (Returned tt,
   {| state := st;
      trace := [Confirm (js "Are you sure you want to delete this student?") true;
                Fetch (DELETE_student id);
                ConsoleError (js "Error deleting student:")
                  {| message := failure_message (network env (DELETE_student id)) |}] |}).
Proof.
  intros Hc Hf. exec. rewrite Hc. exec.
  destruct (network env _) as [[m]|r]; exec; [reflexivity|].
  simpl in Hf. rewrite Hf. reflexivity.
Qed.

Lemma delete_failure_run_witness :
  let st := with_form emptyForm [student "9" "Nine" "n@b.com" "CS101"] None in
  final_state (handleDeleteStudent (js "9")) (env_of true offline) st = st
  /\ effects (handleDeleteStudent (js "9")) (env_of true offline) st
     = [Confirm (js "Are you sure you want to delete this student?") true;
        Fetch (DELETE_student (js "9"));
        ConsoleError (js "Error deleting student:") {| message := js "Failed to fetch" |}].
Proof.
  cbv zeta. unfold final_state, effects.
  rewrite (delete_failure_run (env_of true offline)
             (with_form emptyForm [student "9" "Nine" "n@b.com" "CS101"] None) (js "9")).
  - split; reflexivity.
  - reflexivity.
  - exact I.
Defined.

End CrudMore.

Module ComponentMore.
Import ValidationFacts ListFacts HandlerFacts Crud CrudMore Requests Scenario Vocabulary App.

Ltac exec_ui :=
  cbv [final_state effects result run
       fetchCourses fetchStudents setCourses setStudentsTo
       onAddDialogOpenChange onEditDialogOpenChange
       onNameChange onEmailChange onCourseChange handleEditClick
       handleAddStudent handleEditStudent handleDeleteStudent validateForm resetForm
       editingStudent_id
       setStudents setIsAddDialogOpen setIsEditDialogOpen setEditingStudent
       setFormData setErrors
       fetch settle throw_unless_ok json_student json_students json_courses
       confirm console_error emit modify gets throw try_catch try_finally
       mbind M_bind bind mret M_ret ret
       GET_courses GET_students POST_student PUT_student DELETE_student
       state trace fst snd] in *;
  cbn [with_students with_courses with_isAddDialogOpen with_isEditDialogOpen
       with_editingStudent with_formData with_errors
       students courses isAddDialogOpen isEditDialogOpen editingStudent formData
       errors negb] in *.

(** X20.  The course fetch at mount: a 2xx response carrying the courses
    replaces the list of courses wholesale and changes nothing else; a
    failure (rejected promise, status outside 2xx, unreadable body)
    changes no state and is only logged, under "Error fetching
    courses:".  Either way exactly one GET is sent. *)
Theorem fetchCourses_outcome (env : Env) (st : State) :
  (forall r l,
     network env GET_courses = Fulfilled r -> ok r = true ->
     json r = inr (JsonCourses l) ->
     run fetchCourses env st
     = (Returned tt, {| state := with_courses l st; trace := [Fetch GET_courses] |}))
  /\ (forall err,
        raised (network env GET_courses) = Some err ->
        run fetchCourses env st
        = (Returned tt,
           {| state := st;
              trace := [Fetch GET_courses;
                        ConsoleError (js "Error fetching courses:") err] |})).
Proof.
  split.
  - intros r l Hn Hok Hj. exec_ui. rewrite Hn. exec_ui. rewrite Hok. exec_ui.
    rewrite Hj. reflexivity.
  - intros err Hr. exec_ui. unfold raised in Hr.
    destruct (network env _) as [x|r]; exec_ui.
    + injection Hr as ->. reflexivity.
    + destruct (ok r); exec_ui.
      * destruct (json r) as [x|j]; [|discriminate]. injection Hr as ->. reflexivity.
      * injection Hr as <-. reflexivity.
Qed.

Lemma fetchCourses_outcome_witness :
  let cs := [{| Course.id := js "1"; Course.code := js "CS101"; Course.name := js "Intro to CS" |}] in
  let served := Fulfilled {| status := 200; json := inr (JsonCourses cs) |} in
  courses (final_state fetchCourses (env_of true served) initial) = cs
  /\ final_state fetchCourses (env_of true server_error) initial = initial.
Proof.
  cbv zeta. unfold final_state. split.
  - rewrite (proj1 (fetchCourses_outcome
       (env_of true (Fulfilled {| status := 200; json := inr (JsonCourses
          [{| Course.id := js "1"; Course.code := js "CS101"; Course.name := js "Intro to CS" |}]) |}))
       initial) _ _ eq_refl eq_refl eq_refl).
    reflexivity.
  - rewrite (proj2 (fetchCourses_outcome (env_of true server_error) initial)
               {| message := js "HTTP error! status: 500" |} eq_refl).
    reflexivity.
Defined.

Lemma fetchCourses_final env :
  exists o : option (list Course.t),
    forall st, final_state fetchCourses env st
               = match o with Some l => with_courses l st | None => st end.
Proof.
  exec_ui.
  destruct (network env _) as [e|r]; exec_ui; [exists None; reflexivity|].
  destruct (ok r); exec_ui; [|exists None; reflexivity].
  destruct (json r) as [x|[s|l|l]];
    [exists None | exists None | exists None | exists (Some l)]; reflexivity.
Qed.

Lemma fetchStudents_final env :
  exists o : option (list Student.t),
    forall st, final_state fetchStudents env st
               = match o with Some l => with_students (fun _ => l) st | None => st end.
Proof.
  exec_ui.
  destruct (network env _) as [e|r]; exec_ui; [exists None; reflexivity|].
  destruct (ok r); exec_ui; [|exists None; reflexivity].
  destruct (json r) as [x|[s|l|l]];
    [exists None | exists None | exists (Some l) | exists None]; reflexivity.
Qed.

(** X21.  The two mount effects do not depend on the order in which they
    complete: running the course fetch and then the student fetch gives
    the same state as running them the other way round. *)
Theorem mount_effects_commute (env : Env) (st : State) :
  final_state fetchStudents env (final_state fetchCourses env st)
  = final_state fetchCourses env (final_state fetchStudents env st).
Proof.
  destruct (fetchCourses_final env) as (oc & Hc).
  destruct (fetchStudents_final env) as (os & Hs).
  rewrite !Hc, !Hs. destruct oc, os; reflexivity.
Qed.

(** X22.  Clicking Edit on a student and submitting: the click fills the
    form with the student's fields, remembers the student and opens the
    edit dialog, without touching the list or the errors already shown;
    the submit that follows sends the PUT to that student's id with
    those fields as body when they pass validation, and nothing
    otherwise. *)
Theorem edit_click_then_submit (env env' : Env) (st : State) (s : Student.t) :
  let st1 := final_state (handleEditClick s) env st in
  st1 = with_isEditDialogOpen true (with_formData (form_of s) (with_editingStudent (Some s) st))
  /\ requests (effects handleEditStudent env' st1)
     = if Nat.eqb (size (newErrors (form_of s))) 0
       then [PUT_student (Student.id s) (form_of s)] else [].
Proof.
  cbv zeta. split; [reflexivity|].
  rewrite edit_requests. reflexivity.
Qed.

Lemma replace_by_id_echo s l :
  NoDup (ids l) -> In s l -> replace_by_id s l = l.
Proof.
  unfold ids, replace_by_id. induction l as [|a l IH]; intros Hnd Hin; [reflexivity|].
  simpl in Hnd. apply NoDup_cons in Hnd as [Ha Hnd]. simpl.
  destruct Hin as [->|Hin].
  - unfold strict_eq. rewrite bool_decide_eq_true_2 by reflexivity. f_equal.
    apply replace_by_id_absent. apply List.Forall_forall. intros x Hx E.
    apply Ha. apply list_elem_of_In. apply in_map_iff. eauto.
  - rewrite (IH Hnd Hin). f_equal.
    destruct (strict_eq (Student.id a) (Student.id s)) eqn:E; [|reflexivity].
    apply strict_eq_true in E. exfalso. apply Ha. apply list_elem_of_In.
    apply in_map_iff. exists s. split; [congruence|exact Hin].
Qed.

(** X23.  Editing without changing anything is a round trip: in a list
    with unique ids, clicking Edit on one of its students and submitting
    the form as filled in, with the server echoing the record back,
    leaves the list of students as it was. *)
Theorem edit_unchanged_round_trip (env env' : Env) (st : State) (s : Student.t) :
  NoDup (ids (students st)) ->
  In s (students st) ->
  newErrors (form_of s) = ∅ ->
  succeeds_with (network env' (PUT_student (Student.id s) (form_of s))) s ->
  students (final_state handleEditStudent env' (final_state (handleEditClick s) env st))
  = students st.
Proof.
  intros Hnd Hin Hv Hs. apply valid_iff in Hv.
  rewrite (edit_students_success env' _ s s); [| exact Hv | reflexivity | exact Hs].
  now apply replace_by_id_echo.
Qed.

Lemma edit_unchanged_round_trip_witness :
  let a := student "7" "Jane Doe" "jane@example.com" "CS101" in
  let b := student "8" "Other" "o@b.com" "MA201" in
  students (final_state handleEditStudent (env_of true (updated a))
              (final_state (handleEditClick a) (env_of true offline)
                 (with_form emptyForm [b; a] None)))
  = [b; a].
Proof.
  cbv zeta.
  apply (edit_unchanged_round_trip (env_of true offline)
           (env_of true (updated (student "7" "Jane Doe" "jane@example.com" "CS101")))
           (with_form emptyForm
              [student "8" "Other" "o@b.com" "MA201";
               student "7" "Jane Doe" "jane@example.com" "CS101"] None)
           (student "7" "Jane Doe" "jane@example.com" "CS101")).
  - apply NoDup_ListNoDup. repeat constructor; simpl; intuition discriminate.
  - simpl. auto.
  - vm_compute. reflexivity.
  - eexists. split; [reflexivity|]. split; reflexivity.
Defined.

(** X24.  An abandoned edit.  From a state with a clean form and the
    edit dialog closed: click Edit on a student, blank the name and
    submit; the validation rejects it, no request is sent and the name
    error is stored.  If the dialog then reports closing through its
    [onOpenChange] callback, the state is again the one before the
    click.  The Cancel button is different: its callback only lowers the
    flag, so the blanked form, the name error and the student being
    edited all stay, and the state is not the one before the click. *)
Theorem abandoned_edit_round_trip (env : Env) (st : State) (s : Student.t) (n : list N) :
  formData st = emptyForm ->
  errors st = ∅ ->
  editingStudent st = None ->
  isEditDialogOpen st = false ->
  Forall (fun c => is_whitespace c = true) n ->
  let fd := {| FormData.name := n; FormData.email := Student.email s;
               FormData.course := Student.course s |} in
  let st1 := final_state (handleEditClick s) env st in
  let st2 := final_state (onNameChange n) env st1 in
  let st3 := final_state handleEditStudent env st2 in
  requests (effects handleEditStudent env st2) = []
  /\ errors st3 !! js "name" = Some (js "Name is required")
  /\ final_state (onEditDialogOpenChange false) env st3 = st
  /\ final_state onEditCancelClick env st3
     = with_errors (newErrors fd) (with_formData fd (with_editingStudent (Some s) st))
  /\ final_state onEditCancelClick env st3 <> st.
Proof.
  intros Hf He Hs Ho Hn. cbv zeta.
  set (fd := {| FormData.name := n; FormData.email := Student.email s;
                FormData.course := Student.course s |}).
  assert (Hname : newErrors fd !! js "name" = Some (js "Name is required")).
  { rewrite newErrors_name. apply trim_nil in Hn. cbn [fd FormData.name]. now rewrite Hn. }
  assert (Hbad : Nat.eqb (size (newErrors fd)) 0 = false).
  { apply invalid_iff. intros E. rewrite E in Hname. discriminate. }
  assert (E2 : final_state (onNameChange n) env (final_state (handleEditClick s) env st)
               = with_formData fd (final_state (handleEditClick s) env st))
    by reflexivity.
  rewrite E2.
  assert (E3 : final_state handleEditStudent env
                 (with_formData fd (final_state (handleEditClick s) env st))
               = with_errors (newErrors fd)
                   (with_formData fd (final_state (handleEditClick s) env st))).
  { unfold final_state at 1. exec. rewrite Hbad. reflexivity. }
  rewrite E3.
  assert (Ecancel :
    final_state onEditCancelClick env
      (with_errors (newErrors fd)
         (with_formData fd (final_state (handleEditClick s) env st)))
    = with_errors (newErrors fd) (with_formData fd (with_editingStudent (Some s) st))).
  { destruct st. cbn in *. subst. reflexivity. }
  split; [|split; [|split; [|split]]].
  - rewrite edit_requests. cbn [with_formData formData editingStudent]. rewrite Hbad.
    now destruct (editingStudent _).
  - exact Hname.
  - destruct st. cbn in *. subst. reflexivity.
  - exact Ecancel.
  - rewrite Ecancel. intros E. apply (f_equal editingStudent) in E.
    cbn [with_errors with_formData with_editingStudent editingStudent] in E. congruence.
Qed.

Lemma abandoned_edit_round_trip_witness :
  let a := student "7" "Jane Doe" "jane@example.com" "CS101" in
  let st := with_form emptyForm [a] None in
  let env := env_of true (updated a) in
  let st3 := final_state handleEditStudent env
               (final_state (onNameChange (js "  ")) env
                  (final_state (handleEditClick a) env st)) in
  final_state (onEditDialogOpenChange false) env st3 = st
  /\ editingStudent (final_state onEditCancelClick env st3) = Some a
  /\ final_state onEditCancelClick env st3 <> st.
Proof.
  cbv zeta.
  destruct (abandoned_edit_round_trip
           (env_of true (updated (student "7" "Jane Doe" "jane@example.com" "CS101")))
           (with_form emptyForm [student "7" "Jane Doe" "jane@example.com" "CS101"] None)
           (student "7" "Jane Doe" "jane@example.com" "CS101") (js "  "))
    as (_ & _ & Hclose & Hcancel & Hne); try reflexivity.
  - repeat constructor.
  - split; [exact Hclose|]. split; [|exact Hne].
    rewrite Hcancel. reflexivity.
Defined.

(** X25.  What the user types is what is sent.  After the three inputs
    have changed, in any of the six orders, the form holds the three
    typed values and nothing else of the state has changed (the errors
    of an earlier rejected submit stay on screen); the submit that
    follows posts exactly these values when they pass validation and
    sends nothing otherwise. *)
Theorem typing_then_submit (env env' : Env) (st : State) (n e c : list N) :
  let fd := {| FormData.name := n; FormData.email := e; FormData.course := c |} in
  let typed := with_formData fd st in
  let name := onNameChange n in
  let email := onEmailChange e in
  let course := onCourseChange c in
  let after (first second third : M State unit) :=
    final_state third env (final_state second env (final_state first env st)) in
  after name email course = typed
  /\ after name course email = typed
  /\ after email name course = typed
  /\ after email course name = typed
  /\ after course name email = typed
  /\ after course email name = typed
  /\ requests (effects handleAddStudent env' typed)
     = if Nat.eqb (size (newErrors fd)) 0 then [POST_student fd] else [].
Proof.
  cbv zeta. repeat (split; [reflexivity|]).
  rewrite add_requests. reflexivity.
Qed.

End ComponentMore.

Module HookMore.
Import Requests Scenario Vocabulary Hook UseStudents.

(** X26.  The hook on a readable answer: a 2xx response carrying the
    students gives that list, no error and the loading flag cleared; a
    2xx response whose body cannot be read gives the empty list and the
    message of the parse error.  In every case exactly one request is
    sent, the GET of the students URL. *)
Theorem useStudents_outcome (env : Env) :
  effects fetchStudents env initial = [Fetch request]
  /\ (forall r l,
        network env request = Fulfilled r -> ok r = true ->
        json r = inr (JsonStudents l) ->
        useStudents env = {| students := l; loading := false; error := None |})
  /\ (forall r e,
        network env request = Fulfilled r -> ok r = true ->
        json r = inl e ->
        useStudents env = {| students := []; loading := false; error := Some (message e) |}).
Proof.
  split; [|split].
  - unfold effects. exec_hook.
    destruct (network env request) as [e|r]; [reflexivity|].
    destruct (ok r); exec_hook; [|reflexivity].
    destruct (json r) as [e|[s|l|l]]; reflexivity.
  - intros r l Hn Hok Hj. exec_hook. rewrite Hn. exec_hook. rewrite Hok. exec_hook.
    rewrite Hj. reflexivity.
  - intros r e Hn Hok Hj. exec_hook. rewrite Hn. exec_hook. rewrite Hok. exec_hook.
    rewrite Hj. reflexivity.
Qed.

Lemma useStudents_outcome_witness :
  let l := [student "7" "Jane Doe" "jane@example.com" "CS101"] in
  let served := Fulfilled {| status := 200; json := inr (JsonStudents l) |} in
  let garbled := Fulfilled {| status := 200; json := inl {| message := js "Unexpected token" |} |} in
  useStudents (env_of true served) = {| students := l; loading := false; error := None |}
  /\ useStudents (env_of true garbled)
     = {| students := []; loading := false; error := Some (js "Unexpected token") |}.
Proof.
  cbv zeta. split.
  - apply (proj1 (proj2 (useStudents_outcome (env_of true
       (Fulfilled {| status := 200; json := inr (JsonStudents
          [student "7" "Jane Doe" "jane@example.com" "CS101"]) |}))))
       {| status := 200; json := inr (JsonStudents
          [student "7" "Jane Doe" "jane@example.com" "CS101"]) |}); reflexivity.
  - apply (proj2 (proj2 (useStudents_outcome (env_of true
       (Fulfilled {| status := 200; json := inl {| message := js "Unexpected token" |} |}))))
       {| status := 200; json := inl {| message := js "Unexpected token" |} |}
       {| message := js "Unexpected token" |}); reflexivity.
Defined.

End HookMore.

Module StatsMore.
Import ListFacts HandlerFacts Crud CrudMore Requests Scenario Vocabulary App.

Lemma enrolledCourses_cons s l :
  enrolledCourses (s :: l) =
  if decide (Student.course s ∈ map Student.course l)
  then enrolledCourses l else S (enrolledCourses l).
Proof.
  unfold enrolledCourses.
  change (map Student.course (s :: l)) with (Student.course s :: map Student.course l).
  rewrite list_to_set_cons.
  destruct (decide (Student.course s ∈ map Student.course l)) as [Hin|Hin].
  - f_equal.
    apply (elem_of_list_to_set (C:=gset (list N))) in Hin.
    apply subseteq_union_1_L. now apply singleton_subseteq_l.
  - rewrite size_union, size_singleton; [reflexivity|].
    apply disjoint_singleton_l. intros H. apply Hin.
    now apply (elem_of_list_to_set (C:=gset (list N))).
Qed.

(** X27.  The "Enrolled Courses" figure counts distinct course codes: it
    never exceeds the number of students, and it is zero exactly when
    there is no student. *)
Theorem enrolledCourses_bounds (l : list Student.t) :
  (enrolledCourses l <= length l)%nat
  /\ (enrolledCourses l = 0%nat <-> l = []).
Proof.
  split.
  - induction l as [|s l IH]; [reflexivity|].
    rewrite enrolledCourses_cons. simpl. destruct (decide _); lia.
  - split.
    + destruct l as [|s l]; [reflexivity|].
      rewrite enrolledCourses_cons. destruct (decide _) as [Hin|Hin]; [|discriminate].
      intros H0. exfalso. unfold enrolledCourses in H0.
      apply size_empty_iff in H0.
      apply (elem_of_list_to_set (C:=gset (list N))) in Hin.
      rewrite H0 in Hin. exact (not_elem_of_empty _ Hin).
    + intros ->. reflexivity.
Qed.

(** X28.  After a successful create the "Enrolled Courses" figure is
    unchanged when some student already has the course of the new
    record, and goes up by one otherwise. *)
Theorem enrolledCourses_after_create (env : Env) (st : State) (s : Student.t) :
  newErrors (formData st) = ∅ ->
  succeeds_with (network env (POST_student (formData st))) s ->
  enrolledCourses (students (final_state handleAddStudent env st))
  = if decide (Student.course s ∈ map Student.course (students st))
    then enrolledCourses (students st)
    else S (enrolledCourses (students st)).
Proof.
  intros Hv Hs. apply valid_iff in Hv. rewrite (add_students_success env st s Hv Hs).
  rewrite <- enrolledCourses_cons. unfold enrolledCourses.
  rewrite map_app. simpl. f_equal.
  rewrite list_to_set_app_L, list_to_set_cons.
  rewrite list_to_set_nil, (right_id_L ∅ (∪)). apply (comm_L (∪)).
Qed.

Lemma enrolledCourses_after_create_witness :
  let a := student "7" "Jane Doe" "jane@example.com" "CS101" in
  let s := student "42" "A" "a@b.com" "CS101" in
  enrolledCourses (students (final_state handleAddStudent (env_of true (created s))
                               (with_form jane [a] None))) = 1%nat.
Proof.
  cbv zeta.
  rewrite (enrolledCourses_after_create
             (env_of true (created (student "42" "A" "a@b.com" "CS101")))
             (with_form jane [student "7" "Jane Doe" "jane@example.com" "CS101"] None)
             (student "42" "A" "a@b.com" "CS101")).
  - vm_compute. reflexivity.
  - vm_compute. reflexivity.
  - eexists. split; [reflexivity|]. split; reflexivity.
Defined.

(** X29.  With unique course codes the badge of a student shows the
    name of exactly the course the code belongs to: every course of the
    list is found under its own code. *)
Theorem getCourseName_unique_codes (courses : list Course.t) (c : Course.t) :
  NoDup (map Course.code courses) ->
  In c courses ->
  getCourseName courses (Course.code c) = Course.name c.
Proof.
  unfold getCourseName. induction courses as [|a l IH]; intros Hnd Hin; [destruct Hin|].
  simpl in Hnd. apply NoDup_cons in Hnd as [Ha Hnd]. simpl.
  destruct Hin as [->|Hin].
  - unfold strict_eq. now rewrite bool_decide_eq_true_2.
  - destruct (strict_eq (Course.code a) (Course.code c)) eqn:E.
    + apply strict_eq_true in E. exfalso. apply Ha. apply list_elem_of_In.
      apply in_map_iff. exists c. split; [congruence|exact Hin].
    + now apply IH.
Qed.

Lemma getCourseName_unique_codes_witness :
  let cs := {| Course.id := js "1"; Course.code := js "CS101"; Course.name := js "Intro to CS" |} in
  let ma := {| Course.id := js "2"; Course.code := js "MA201"; Course.name := js "Calculus" |} in
  getCourseName [cs; ma] (js "MA201") = js "Calculus".
Proof.
  cbv zeta.
  apply (getCourseName_unique_codes
           [{| Course.id := js "1"; Course.code := js "CS101"; Course.name := js "Intro to CS" |};
            {| Course.id := js "2"; Course.code := js "MA201"; Course.name := js "Calculus" |}]
           {| Course.id := js "2"; Course.code := js "MA201"; Course.name := js "Calculus" |}).
  - apply NoDup_ListNoDup. repeat constructor; simpl; intuition discriminate.
  - simpl. auto.
Defined.

End StatsMore.
